(** * Outgoing-ball eject orchestration of an MPF ball device

    A shallow embedding of [mpf/devices/ball_device/outgoing_balls_handler.py]
    (class [OutgoingBallsHandler]) and the properties of its eject loop, of
    one physical attempt and of the confirmation handling.

    The handler is a cooperative coroutine: it calls collaborators (the
    ball-count handler, the ejector, the target device), waits on futures
    with a deadline and raises or returns.  The embedding is a small monad
    that threads the clock and the object store, records every call to a
    collaborator as an event and ends in a returned value, a raised
    exception, a wait that never resumes, or an exhausted loop budget. *)

From Stdlib Require Import ZArith List String Bool Lia.
Import ListNotations.

Local Open Scope string_scope.
Local Open Scope list_scope.
Local Open Scope Z_scope.

(** ** Data model *)

(** Python objects are told apart by identity; an object is its address. *)
Definition Future := nat.
Definition Process := nat.
Definition Device := nat.

(** class EjectRequest.  [max_tries] and [eject_timeout] start as [None];
    [target] is the destination device, [confirm_future] the future made in
    [__init__]. *)
Module EjectRequest.
Record t : Type := mk {
  max_tries : option Z;
  eject_timeout : option Z;
  target : Device;
  mechanical : option bool;
  confirm_future : Future
}.

(** def wait_for_eject_confirm(self): return self.confirm_future *)
Definition wait_for_eject_confirm (self : t) : Future := confirm_future self.
End EjectRequest.

(** The attributes [_add_incoming_ball_to_target] sets on an IncomingBall. *)
Module IncomingBall.
Record t : Type := mk {
  source : Device;
  timeout_future : Future;
  confirm_future : Future
}.
End IncomingBall.

(** Exceptions the handler raises or meets. *)
Inductive Exn : Type :=
| TypeError (callee : string) (takes given : nat)
| AssertionError (msg : string)
| TimeoutError.

(** Calls into collaborators, in the order they happen. *)
Inductive Event : Type :=
| EvWaitForBall
| EvGetBallCount (count : Z)
| EvStartEject (p : Process)
| EvIsJammed (p : Process) (jammed : bool)
| EvEjectOneBall (jammed : bool) (eject_try : Z)
| EvWaitForBallLeft (p : Process)
| EvWaitForBallReturn (p : Process)
| EvIsBallReturned (p : Process) (returned : bool)
| EvEjectFailed (p : Process)
| EvEjectDone (p : Process)
| EvAddIncomingBall (target : Device) (ball : IncomingBall.t)
| EvFirst (futures : list Future) (timeout : option Z) (cancel_others : bool)
| EvStop.

(** The part of the machine the handler changes: the clock of the event
    loop, the futures cancelled so far and the next free object address. *)
Record World : Type := mkWorld {
  now : Z;
  cancelled : list Future;
  next_obj : nat
}.

(** The collaborators, as the handler sees them.  None of them is part of
    this file of the repository; each is a parameter of the model. *)
Record Env : Type := mkEnv {
  (** the device this handler belongs to ([self.ball_device]) *)
  ball_device : Device;
  (** [ball_count_handler.wait_for_ball()] asked at a time: the time a ball
      is there, [None] when none ever comes *)
  wait_for_ball : Z -> option Z;
  (** [ball_count_handler.get_ball_count()] asked at a time *)
  get_ball_count : Z -> Z;
  (** [EjectProcessCounter.is_jammed()] *)
  is_jammed : Process -> Z -> bool;
  (** [EjectProcessCounter.wait_for_ball_left()] *)
  wait_for_ball_left : Process -> Future;
  (** [EjectProcessCounter.wait_for_ball_return()] *)
  wait_for_ball_return : Process -> Future;
  (** [EjectProcessCounter.is_ball_returned()] asked at a time *)
  is_ball_returned : Process -> Z -> bool;
  (** the time at which a future is completed by whoever owns it, [None]
      when it never is *)
  done_at : Future -> option Z
}.

(** ** The monad of handler code *)

Inductive Outcome (A : Type) : Type :=
| Returned (a : A)
| Raised (e : Exn)
| Suspended
| OutOfFuel.

Arguments Returned {A} a.
Arguments Raised {A} e.
Arguments Suspended {A}.
Arguments OutOfFuel {A}.

Record Run (A : Type) : Type := mkRun {
  outcome : Outcome A;
  final : World;
  events : list Event
}.

Arguments mkRun {A} outcome final events.
Arguments outcome {A} r.
Arguments final {A} r.
Arguments events {A} r.

Definition M (A : Type) : Type := World -> Run A.

Definition ret {A} (a : A) : M A := fun w => mkRun (Returned a) w [].

Definition raise {A} (e : Exn) : M A := fun w => mkRun (Raised e) w [].

Definition suspend {A} : M A := fun w => mkRun Suspended w [].

Definition out_of_fuel {A} : M A := fun w => mkRun OutOfFuel w [].

Definition emit (e : Event) : M unit := fun w => mkRun (Returned tt) w [e].

Definition bind {A B} (m : M A) (k : A -> M B) : M B :=
  fun w =>
    match m w with
    | mkRun (Returned a) w' evs =>
        match k a w' with
        | mkRun o w'' evs' => mkRun o w'' (evs ++ evs')
        end
    | mkRun (Raised e) w' evs => mkRun (Raised e) w' evs
    | mkRun Suspended w' evs => mkRun Suspended w' evs
    | mkRun OutOfFuel w' evs => mkRun OutOfFuel w' evs
    end.

Notation "x <- m ;; k" := (bind m (fun x => k))
  (at level 61, m at next level, right associativity).
Notation "m ;; k" := (bind m (fun _ => k))
  (at level 61, right associativity).

(** try: body / except asyncio.TimeoutError: handler / else: orelse.
    Only the body is guarded: what the handler or the else branch raises
    goes to the caller. *)
Definition try_except_TimeoutError {A B}
    (body : M A) (handler : M B) (orelse : A -> M B) : M B :=
  fun w =>
    match body w with
    | mkRun (Returned a) w' evs =>
        match orelse a w' with
        | mkRun o w'' evs' => mkRun o w'' (evs ++ evs')
        end
    | mkRun (Raised TimeoutError) w' evs =>
        match handler w' with
        | mkRun o w'' evs' => mkRun o w'' (evs ++ evs')
        end
    | mkRun (Raised e) w' evs => mkRun (Raised e) w' evs
    | mkRun Suspended w' evs => mkRun Suspended w' evs
    | mkRun OutOfFuel w' evs => mkRun OutOfFuel w' evs
    end.

(** ** Calling a method

    A method has its parameter list; a call hands over positional arguments.
    Python binds them one to one and raises [TypeError] when the numbers
    differ (the methods here have no defaults and no [*args]). *)
Inductive PyVal : Type :=
| VSelf
| VRequest (r : EjectRequest.t)
| VInt (n : Z)
| VProcess (p : Process)
| VIncomingBall (b : IncomingBall.t).

Record Method (A : Type) : Type := mkMethod {
  name : string;
  params : list string;
  body : list PyVal -> M A
}.

Arguments mkMethod {A} name params body.
Arguments name {A} m.
Arguments params {A} m.
Arguments body {A} m.

Definition invoke {A} (m : Method A) (args : list PyVal) : M A :=
  if Nat.eqb (List.length args) (List.length (params m))
  then body m args
  else raise (TypeError (name m) (List.length (params m)) (List.length args)).

(** Arguments of another shape than the body reads never get past the
    callers in this file. *)
Definition bad_arguments {A} (callee : string) (args : list PyVal) : M A :=
  raise (TypeError callee 0 (List.length args)).

Section Handler.

Variable env : Env.

(** ** Futures, the clock and the wait-for-first combinator *)

(** When a future completes: never once it is cancelled. *)
Definition completion (w : World) (f : Future) : option Z :=
  if existsb (Nat.eqb f) (cancelled w) then None else done_at env f.

(** The earliest completion among the futures waited on, the earlier
    place in the list first at equal times. *)
Fixpoint first_completed (w : World) (futures : list Future)
  : option (Future * Z) :=
  match futures with
  | [] => None
  | f :: rest =>
      match completion w f, first_completed w rest with
      | Some t, Some (g, u) => if t <=? u then Some (f, t) else Some (g, u)
      | Some t, None => Some (f, t)
      | None, later => later
      end
  end.

(** The futures still pending at a time. *)
Definition pending_at (w : World) (t : Z) (futures : list Future)
  : list Future :=
  filter (fun g => match completion w g with
                   | Some u => t <? u
                   | None => true
                   end) futures.

(** The time at which a wait of [timeout] units started now gives up. *)
Definition deadline (w : World) (timeout : Z) : Z := now w + Z.max 0 timeout.

(** A future completes by a time. *)
Definition completes_by (w : World) (f : Future) (t : Z) : bool :=
  match completion w f with
  | Some u => u <=? t
  | None => false
  end.

(** Modelled from the spec: [Util.first] of [mpf.core.utility_functions],
    which is not among the sources at hand.  Section 4.1: given signals
    and a deadline, suspend until any signal completes and return which
    one, or fail with a timeout when the deadline elapses; with
    cancel-others the other pending waits are cancelled and complete no
    more, without it they are left as they are.  Without a deadline
    ([timeout=None]) the wait lasts until a signal completes. *)
Definition Util_first (futures : list Future) (timeout : option Z)
    (cancel_others : bool) : M Future :=
  fun w =>
    let cancel (others : list Future) :=
      if cancel_others then others else [] in
    let won (f : Future) (t : Z) :=
      let t' := Z.max (now w) t in
      mkRun (Returned f)
            (mkWorld t' (cancel (pending_at w t' futures) ++ cancelled w)
                     (next_obj w))
            [EvFirst futures timeout cancel_others] in
    let timed_out (d : Z) :=
      mkRun (Raised TimeoutError)
            (mkWorld (deadline w d) (cancel futures ++ cancelled w)
                     (next_obj w))
            [EvFirst futures timeout cancel_others] in
    match first_completed w futures, timeout with
    | Some (f, t), None => won f t
    | Some (f, t), Some d =>
        if t <=? deadline w d then won f t else timed_out d
    | None, Some d => timed_out d
    | None, None =>
        mkRun Suspended w [EvFirst futures timeout cancel_others]
    end.

(** asyncio.Future(loop=...): a new future, pending. *)
Definition asyncio_Future : M Future :=
  fun w =>
    mkRun (Returned (next_obj w))
          (mkWorld (now w) (cancelled w) (S (next_obj w))) [].

(** ** The collaborators *)

(** self.ball_device.ball_count_handler.wait_for_ball() *)
Definition ball_count_handler_wait_for_ball : M unit :=
  fun w =>
    match wait_for_ball env (now w) with
    | Some t =>
        mkRun (Returned tt)
              (mkWorld (Z.max (now w) t) (cancelled w) (next_obj w))
              [EvWaitForBall]
    | None => mkRun Suspended w [EvWaitForBall]
    end.

(** self.ball_device.ball_count_handler.get_ball_count() *)
Definition ball_count_handler_get_ball_count : M Z :=
  fun w =>
    let count := get_ball_count env (now w) in
    mkRun (Returned count) w [EvGetBallCount count].

(** self.ball_device.ball_count_handler.start_eject(): a new handle. *)
Definition ball_count_handler_start_eject : M Process :=
  fun w =>
    let p := next_obj w in
    mkRun (Returned p) (mkWorld (now w) (cancelled w) (S p))
          [EvStartEject p].

(** ball_eject_process.is_jammed() *)
Definition process_is_jammed (p : Process) : M bool :=
  fun w =>
    let jammed := is_jammed env p (now w) in
    mkRun (Returned jammed) w [EvIsJammed p jammed].

(** ball_eject_process.wait_for_ball_left() *)
Definition process_wait_for_ball_left (p : Process) : M Future :=
  emit (EvWaitForBallLeft p) ;; ret (wait_for_ball_left env p).

(** ball_eject_process.wait_for_ball_return() *)
Definition process_wait_for_ball_return (p : Process) : M Future :=
  emit (EvWaitForBallReturn p) ;; ret (wait_for_ball_return env p).

(** ball_eject_process.is_ball_returned() *)
Definition process_is_ball_returned (p : Process) : M bool :=
  fun w =>
    let returned := is_ball_returned env p (now w) in
    mkRun (Returned returned) w [EvIsBallReturned p returned].

(** ball_eject_process.eject_failed() *)
Definition process_eject_failed (p : Process) : M unit :=
  emit (EvEjectFailed p).

(** ball_eject_process.eject_done() *)
Definition process_eject_done (p : Process) : M unit :=
  emit (EvEjectDone p).

(** self.ball_device.ejector.eject_one_ball(jammed, eject_try) *)
Definition ejector_eject_one_ball (jammed : bool) (eject_try : Z) : M unit :=
  emit (EvEjectOneBall jammed eject_try).

(** eject_request.target.add_incoming_ball(incoming_ball_at_target) *)
Definition target_add_incoming_ball (target : Device)
    (ball : IncomingBall.t) : M unit :=
  emit (EvAddIncomingBall target ball).

(** self.ball_device.stop() *)
Definition ball_device_stop : M unit := emit EvStop.

(** self.debug_log(...): logging changes nothing the handler reads. *)
Definition debug_log (msg : string) : M unit := ret tt.

(** ** class OutgoingBallsHandler *)

(** def _prepare_eject(self, eject_request): pass *)
Definition _prepare_eject : Method unit :=
  mkMethod "_prepare_eject" ["self"; "eject_request"] (fun _ => ret tt).

(** def _abort_eject(self, eject_request): pass *)
Definition _abort_eject : Method unit :=
  mkMethod "_abort_eject" ["self"; "eject_request"] (fun _ => ret tt).

(** def _failed_eject(self, eject_request): pass *)
Definition _failed_eject : Method unit :=
  mkMethod "_failed_eject" ["self"; "eject_request"] (fun _ => ret tt).

(** def _handle_late_confirm_or_missing(self, eject_request,
                                        ball_eject_process) *)
Definition _handle_late_confirm_or_missing : Method bool :=
  mkMethod "_handle_late_confirm_or_missing"
    ["self"; "eject_request"; "ball_eject_process"]
    (fun args =>
       match args with
       | [VSelf; VRequest eject_request; VProcess ball_eject_process] =>
           ball_return_future <-
             process_wait_for_ball_return ball_eject_process ;;
           let eject_success_future :=
             EjectRequest.wait_for_eject_confirm eject_request in
           let timeout := 60 in
           try_except_TimeoutError
             (Util_first [ball_return_future; eject_success_future]
                         (Some timeout) true)
             (raise (AssertionError "handle lost ball"))
             (fun event =>
                if Nat.eqb event eject_success_future then
                  (process_eject_done ball_eject_process ;; ret true)
                else if Nat.eqb event ball_return_future then
                  (process_eject_failed ball_eject_process ;; ret false)
                else raise (AssertionError "Invalid state"))
       | _ => bad_arguments "_handle_late_confirm_or_missing" args
       end).

(** def _handle_confirm(self, eject_request, ball_eject_process,
                        incoming_ball_at_target) *)
Definition _handle_confirm : Method bool :=
  mkMethod "_handle_confirm"
    ["self"; "eject_request"; "ball_eject_process";
     "incoming_ball_at_target"]
    (fun args =>
       match args with
       | [VSelf; VRequest eject_request; VProcess ball_eject_process;
          VIncomingBall incoming_ball_at_target] =>
           debug_log "Wait for confirm" ;;
           let timeout := EjectRequest.eject_timeout eject_request in
           try_except_TimeoutError
             (Util_first
                [EjectRequest.wait_for_eject_confirm eject_request]
                timeout false)
             (debug_log "Got timeout before confirm" ;;
              returned <- process_is_ball_returned ball_eject_process ;;
              if returned : bool then
                (process_eject_failed ball_eject_process ;; ret false)
              else
                invoke _handle_late_confirm_or_missing
                       [VSelf; VRequest eject_request;
                        VProcess ball_eject_process])
             (fun _ =>
                debug_log "Got eject confirm" ;;
                process_eject_done ball_eject_process ;;
                ret true)
       | _ => bad_arguments "_handle_confirm" args
       end).

(** def _add_incoming_ball_to_target(self, eject_request) *)
Definition _add_incoming_ball_to_target : Method IncomingBall.t :=
  mkMethod "_add_incoming_ball_to_target" ["self"; "eject_request"]
    (fun args =>
       match args with
       | [VSelf; VRequest eject_request] =>
           timeout_future <- asyncio_Future ;;
           let incoming_ball_at_target :=
             IncomingBall.mk (ball_device env) timeout_future
               (EjectRequest.confirm_future eject_request) in
           target_add_incoming_ball (EjectRequest.target eject_request)
                                    incoming_ball_at_target ;;
           ret incoming_ball_at_target
       | _ => bad_arguments "_add_incoming_ball_to_target" args
       end).

(** def _eject_ball(self, eject_request, eject_try) *)
Definition _eject_ball : Method bool :=
  mkMethod "_eject_ball" ["self"; "eject_request"; "eject_try"]
    (fun args =>
       match args with
       | [VSelf; VRequest eject_request; VInt eject_try] =>
           ball_eject_process <- ball_count_handler_start_eject ;;
           debug_log "Wait for ball to leave device" ;;
           jammed <- process_is_jammed ball_eject_process ;;
           ejector_eject_one_ball jammed eject_try ;;
           let timeout := EjectRequest.eject_timeout eject_request in
           try_except_TimeoutError
             (ball_left <- process_wait_for_ball_left ball_eject_process ;;
              Util_first [ball_left] timeout true)
             (process_eject_failed ball_eject_process ;; ret false)
             (fun _ =>
                debug_log "Ball left" ;;
                incoming_ball_at_target <-
                  invoke _add_incoming_ball_to_target
                         [VSelf; VRequest eject_request] ;;
                invoke _handle_confirm
                       [VSelf; VRequest eject_request;
                        VProcess ball_eject_process;
                        VIncomingBall incoming_ball_at_target])
       | _ => bad_arguments "_eject_ball" args
       end).

(** [eject_request.max_tries and eject_try > eject_request.max_tries]:
    [None] and [0] are false in Python. *)
Definition tries_exceeded (max_tries : option Z) (eject_try : Z) : bool :=
  match max_tries with
  | None => false
  | Some n => negb (n =? 0) && (eject_try >? n)
  end.

(** The [while True] of [_ejecting], [eject_try] being its local; every
    turn of the loop takes one unit of fuel. *)
Fixpoint _ejecting_loop (fuel : nat) (eject_request : EjectRequest.t)
    (eject_try : Z) : M unit :=
  match fuel with
  | O => out_of_fuel
  | S fuel' =>
      debug_log "Wait for ball" ;;
      ball_count_handler_wait_for_ball ;;
      invoke _prepare_eject [VSelf; VRequest eject_request] ;;
      ball_count <- ball_count_handler_get_ball_count ;;
      if ball_count =? 0 then
        (invoke _abort_eject [VSelf; VRequest eject_request; VInt eject_try] ;;
         _ejecting_loop fuel' eject_request eject_try)
      else
        (debug_log "Ejecting ball" ;;
         result <- invoke _eject_ball
                     [VSelf; VRequest eject_request; VInt eject_try] ;;
         if result : bool then ret tt
         else
           (invoke _failed_eject
                   [VSelf; VRequest eject_request; VInt eject_try] ;;
            let eject_try := eject_try + 1 in
            if tries_exceeded (EjectRequest.max_tries eject_request)
                              eject_try
            then (ball_device_stop ;; ret tt)
            else _ejecting_loop fuel' eject_request eject_try))
  end.

(** def _ejecting(self, eject_request) *)
Definition _ejecting (fuel : nat) (eject_request : EjectRequest.t) : M unit :=
  _ejecting_loop fuel eject_request 0.

End Handler.

(** ** The eject queue and its worker *)

(** [self._eject_queue]: an [asyncio.Queue] without a bound, first in first
    out; [__init__] makes it empty. *)
Definition EjectQueue : Type := list EjectRequest.t.

Definition new_eject_queue : EjectQueue := [].

(** def add_eject_to_queue(self, eject): self._eject_queue.put_nowait(eject)
    A queue without a bound is never full. *)
Definition add_eject_to_queue (queue : EjectQueue) (eject : EjectRequest.t)
  : EjectQueue :=
  queue ++ [eject].

Section Worker.

Variable env : Env.

(** def _run(self): the [while True] that takes the next request off the
    queue and hands it to [_ejecting].  [get()] on an empty queue waits;
    the queue is the one the worker finds, nobody adds to it meanwhile.
    Every turn takes one unit of [fuel]; [turns] is the fuel of the loop of
    [_ejecting].  The result is the run and the requests not taken. *)
Fixpoint _run (fuel turns : nat) (queue : EjectQueue) (w : World)
  : Run unit * EjectQueue :=
  match fuel with
  | O => (out_of_fuel w, queue)
  | S fuel' =>
      match queue with
      | [] => (suspend w, [])
      | eject_request :: rest =>
          match (debug_log "Got eject request" ;;
                 _ejecting env turns eject_request) w with
          | mkRun (Returned _) w' evs =>
              match _run fuel' turns rest w' with
              | (mkRun o w'' evs', remaining) =>
                  (mkRun o w'' (evs ++ evs'), remaining)
              end
          | stopped => (stopped, rest)
          end
      end
  end.

End Worker.

(** ** Reading a run *)

Definition count_events (P : Event -> bool) (l : list Event) : nat :=
  List.length (filter P l).

Definition is_wait_for_ball (e : Event) : bool :=
  match e with EvWaitForBall => true | _ => false end.

Definition is_start_eject (e : Event) : bool :=
  match e with EvStartEject _ => true | _ => false end.

Definition is_stop (e : Event) : bool :=
  match e with EvStop => true | _ => false end.

Definition is_add_incoming_ball (e : Event) : bool :=
  match e with EvAddIncomingBall _ _ => true | _ => false end.

Definition is_wait_for_ball_return (e : Event) : bool :=
  match e with EvWaitForBallReturn _ => true | _ => false end.

(** [eject_failed()] or [eject_done()], on whichever handle. *)
Definition is_terminal (e : Event) : bool :=
  match e with EvEjectFailed _ | EvEjectDone _ => true | _ => false end.

(** [eject_failed()] or [eject_done()] on the handle [p]. *)
Definition is_terminal_on (p : Process) (e : Event) : bool :=
  match e with
  | EvEjectFailed q | EvEjectDone q => Nat.eqb p q
  | _ => false
  end.

Definition is_eject_one_ball (e : Event) : bool :=
  match e with EvEjectOneBall _ _ => true | _ => false end.

Definition is_eject_done (e : Event) : bool :=
  match e with EvEjectDone _ => true | _ => false end.

Definition is_eject_failed (e : Event) : bool :=
  match e with EvEjectFailed _ => true | _ => false end.

(** The balls announced to targets, in order: the target and the
    confirmation future of each. *)
Fixpoint announced (l : list Event) : list (Device * Future) :=
  match l with
  | [] => []
  | EvAddIncomingBall target ball :: rest =>
      (target, IncomingBall.confirm_future ball) :: announced rest
  | _ :: rest => announced rest
  end.

(** Every future is complete by now. *)
Definition all_complete (env : Env) (w : World) : Prop :=
  forall f, completes_by env w f (now w) = true.

(** What the target of a request is told of it. *)
Definition announcement (r : EjectRequest.t) : Device * Future :=
  (EjectRequest.target r, EjectRequest.confirm_future r).

(** ** A test bench

    A device that holds [count] balls whenever asked, is never jammed and
    answers [is_ball_returned()] with [returned]; the ball-left future of
    handle [p] lives at address [1000 + p], its ball-return future at
    [2000 + p]; futures complete at the times listed. *)
Definition schedule (completions : list (Future * Z)) (f : Future)
  : option Z :=
  match find (fun c => Nat.eqb (fst c) f) completions with
  | Some c => Some (snd c)
  | None => None
  end.

Definition bench (count : Z) (returned : bool)
    (completions : list (Future * Z)) : Env :=
  mkEnv 1%nat
        (fun t => Some t)
        (fun _ => count)
        (fun _ _ => false)
        (fun p => (1000 + p)%nat)
        (fun p => (2000 + p)%nat)
        (fun _ _ => returned)
        (schedule completions).

(** Time 0, nothing cancelled, objects from address 100 on. *)
Definition start_world : World := mkWorld 0 [] 100.

(** A request for device 2 with 10 units per wait; its confirmation future
    lives at address 7. *)
Definition request (max_tries : option Z) : EjectRequest.t :=
  EjectRequest.mk max_tries (Some 10) 2%nat None 7%nat.

(** The same request with 500 units per wait. *)
Definition patient_request : EjectRequest.t :=
  EjectRequest.mk None (Some 500) 2%nat None 7%nat.

(** The first handle opened from [start_world], and the IncomingBall the
    first attempt on [request] registers. *)
Definition first_handle : Process := 100%nat.

Definition first_ball : IncomingBall.t :=
  IncomingBall.mk 1%nat 101%nat 7%nat.

(** Where the first attempt on [request] enters Step B: the confirmation
    wait, begun at 3, has given up at 13. *)
Definition step_B_world : World := mkWorld 13 [] 102.

(** The ball never leaves. *)
Definition stuck_ball : Env := bench 1 false [].

(** The ball is gone when the count is read again. *)
Definition stolen_ball : Env := bench 0 false [].

(** The ball leaves at 3 and the target confirms at 5. *)
Definition delivered : Env := bench 1 false [(1100%nat, 3); (7%nat, 5)].

(** The ball leaves at 3 and is back before the confirmation wait ends. *)
Definition bounced_back : Env := bench 1 true [(1100%nat, 3)].

(** The ball leaves at 3; the target confirms at 18, five units after the
    confirmation wait has given up at 13. *)
Definition late_confirm : Env := bench 1 false [(1100%nat, 3); (7%nat, 18)].

(** The ball leaves at 3 and comes back at 18. *)
Definition late_return : Env := bench 1 false [(1100%nat, 3); (2100%nat, 18)].

(** The ball leaves at 3 and is never seen again. *)
Definition lost_ball : Env := bench 1 false [(1100%nat, 3)].

(** Every future is complete from the start: balls leave and are
    confirmed at once. *)
Definition prompt : Env :=
  mkEnv 1%nat
        (fun t => Some t)
        (fun _ => 1)
        (fun _ _ => false)
        (fun p => (1000 + p)%nat)
        (fun p => (2000 + p)%nat)
        (fun _ _ => false)
        (fun _ => Some 0).


(** A second request, for device 3, confirmed at address 8. *)
Definition second_request : EjectRequest.t :=
  EjectRequest.mk None (Some 10) 3%nat None 8%nat.

(** ** Properties *)

(** *** The monad *)

Lemma count_events_app (P : Event -> bool) (l1 l2 : list Event) :
  count_events P (l1 ++ l2) = (count_events P l1 + count_events P l2)%nat.
Proof.
  unfold count_events. rewrite filter_app, length_app. reflexivity.
Qed.

(** *** Waiting on futures *)

Section Waiting.

Variable env : Env.

(** A wait on one future that completes in time ends with that future,
    at the later of now and its completion, and cancels nothing. *)
Lemma Util_first_one_completed (w : World) (f : Future) (d t : Z)
      (cancel_others : bool) :
  completion env w f = Some t ->
  t <= deadline w d ->
  Util_first env [f] (Some d) cancel_others w =
    mkRun (Returned f)
          (mkWorld (Z.max (now w) t) (cancelled w) (next_obj w))
          [EvFirst [f] (Some d) cancel_others].
Proof.
  intros Hc Ht. unfold Util_first, pending_at. simpl. rewrite Hc.
  apply Z.leb_le in Ht. rewrite Ht.
  replace (Z.max (now w) t <? t) with false
    by (symmetry; apply Z.ltb_ge; lia).
  destruct cancel_others; reflexivity.
Qed.

(** A wait on one future that does not complete by the deadline raises
    the timeout at the deadline. *)
Lemma Util_first_one_timed_out (w : World) (f : Future) (d : Z)
      (cancel_others : bool) :
  completes_by env w f (deadline w d) = false ->
  Util_first env [f] (Some d) cancel_others w =
    mkRun (Raised TimeoutError)
          (mkWorld (deadline w d)
                   ((if cancel_others then [f] else []) ++ cancelled w)
                   (next_obj w))
          [EvFirst [f] (Some d) cancel_others].
Proof.
  unfold completes_by, Util_first. simpl.
  destruct (completion env w f) as [t|]; intros H.
  - rewrite H. reflexivity.
  - reflexivity.
Qed.

(** The race of two futures, neither done by the deadline. *)
Lemma Util_first_two_timed_out (w : World) (f g : Future) (d : Z) :
  completes_by env w f (deadline w d) = false ->
  completes_by env w g (deadline w d) = false ->
  Util_first env [f; g] (Some d) true w =
    mkRun (Raised TimeoutError)
          (mkWorld (deadline w d) ([f; g] ++ cancelled w) (next_obj w))
          [EvFirst [f; g] (Some d) true].
Proof.
  unfold completes_by, Util_first. simpl.
  destruct (completion env w f) as [t|], (completion env w g) as [u|];
    intros Hf Hg; try reflexivity.
  - destruct (t <=? u); [rewrite Hf | rewrite Hg]; reflexivity.
  - rewrite Hf. reflexivity.
  - rewrite Hg. reflexivity.
Qed.

(** The race of two futures, the second strictly first. *)
Lemma Util_first_two_second (w : World) (f g : Future) (d u : Z) :
  completion env w g = Some u ->
  u <= deadline w d ->
  (forall t, completion env w f = Some t -> u < t) ->
  Util_first env [f; g] (Some d) true w =
    mkRun (Returned g)
          (mkWorld (Z.max (now w) u)
                   (pending_at env w (Z.max (now w) u) [f; g] ++ cancelled w)
                   (next_obj w))
          [EvFirst [f; g] (Some d) true].
Proof.
  intros Hg Hu Hf. unfold Util_first. simpl first_completed. rewrite Hg.
  apply Z.leb_le in Hu.
  destruct (completion env w f) as [t|].
  - specialize (Hf t eq_refl).
    replace (t <=? u) with false by (symmetry; apply Z.leb_gt; lia).
    rewrite Hu. reflexivity.
  - rewrite Hu. reflexivity.
Qed.

(** The race of two futures, the first strictly first. *)
Lemma Util_first_two_first (w : World) (f g : Future) (d t : Z) :
  completion env w f = Some t ->
  t <= deadline w d ->
  (forall u, completion env w g = Some u -> t < u) ->
  Util_first env [f; g] (Some d) true w =
    mkRun (Returned f)
          (mkWorld (Z.max (now w) t)
                   (pending_at env w (Z.max (now w) t) [f; g] ++ cancelled w)
                   (next_obj w))
          [EvFirst [f; g] (Some d) true].
Proof.
  intros Hf Ht Hg. unfold Util_first. simpl first_completed. rewrite Hf.
  apply Z.leb_le in Ht.
  destruct (completion env w g) as [u|].
  - specialize (Hg u eq_refl).
    replace (t <=? u) with true by (symmetry; apply Z.leb_le; lia).
    rewrite Ht. reflexivity.
  - rewrite Ht. reflexivity.
Qed.

(** Later is harder: what is not done by a time is not done before. *)
Lemma completes_by_earlier (w : World) (f : Future) (t t' : Z) :
  t <= t' ->
  completes_by env w f t' = false ->
  completes_by env w f t = false.
Proof.
  unfold completes_by. destruct (completion env w f) as [u|]; [|reflexivity].
  intros Ht H. apply Z.leb_gt in H. apply Z.leb_gt. lia.
Qed.

End Waiting.

Arguments Util_first : simpl never.

(** Unfold one layer of handler code down to the waits. *)
Ltac run_method :=
  unfold invoke; simpl;
  unfold bind, try_except_TimeoutError, process_wait_for_ball_return,
    process_wait_for_ball_left, process_is_ball_returned, process_is_jammed,
    process_eject_done, process_eject_failed, ejector_eject_one_ball,
    target_add_incoming_ball, ball_count_handler_start_eject, asyncio_Future,
    EjectRequest.wait_for_eject_confirm, debug_log, ret, raise, emit; simpl.

(** Split the runs the goal is stuck on. *)
Ltac split_runs :=
  repeat match goal with
         | |- context [match ?x with mkRun _ _ _ => _ end] =>
             lazymatch x with
             | context [match _ with mkRun _ _ _ => _ end] => fail
             | _ => destruct x as [[?|[]| |] ? ?]; simpl
             end
         end.

(** *** Step B: the late-confirmation race *)

Section StepB.

Variable env : Env.
Variable r : EjectRequest.t.
Variable p : Process.
Variable w : World.

Let ball_return := wait_for_ball_return env p.
Let confirm := EjectRequest.confirm_future r.
Let race := EvFirst [ball_return; confirm] (Some 60) true.

Lemma step_B_confirm_wins (tc : Z) :
  completion env w confirm = Some tc ->
  tc <= now w + 60 ->
  (forall tr, completion env w ball_return = Some tr -> tc < tr) ->
  let run := invoke (_handle_late_confirm_or_missing env)
                    [VSelf; VRequest r; VProcess p] w in
  outcome run = Returned true /\
  events run = [EvWaitForBallReturn p; race; EvEjectDone p].
Proof.
  unfold ball_return, confirm, race. intros Hc Ht Hr. run_method.
  rewrite (Util_first_two_second env w _ _ 60 tc Hc Ht Hr). simpl.
  rewrite Nat.eqb_refl. simpl. split; reflexivity.
Qed.

Lemma step_B_return_wins (tr : Z) :
  completion env w ball_return = Some tr ->
  tr <= now w + 60 ->
  (forall tc, completion env w confirm = Some tc -> tr < tc) ->
  let run := invoke (_handle_late_confirm_or_missing env)
                    [VSelf; VRequest r; VProcess p] w in
  outcome run = Returned false /\
  events run = [EvWaitForBallReturn p; race; EvEjectFailed p].
Proof.
  unfold ball_return, confirm, race. intros Hr Ht Hc. run_method.
  rewrite (Util_first_two_first env w _ _ 60 tr Hr Ht Hc). simpl.
  assert (Hne : Nat.eqb (wait_for_ball_return env p)
                        (EjectRequest.confirm_future r) = false).
  { apply Nat.eqb_neq. intros Heq.
    specialize (Hc tr). rewrite <- Heq in Hc. specialize (Hc Hr). lia. }
  rewrite Hne, Nat.eqb_refl. simpl.
  split; reflexivity.
Qed.

Lemma step_B_lost_ball :
  completes_by env w ball_return (now w + 60) = false ->
  completes_by env w confirm (now w + 60) = false ->
  let run := invoke (_handle_late_confirm_or_missing env)
                    [VSelf; VRequest r; VProcess p] w in
  outcome run = Raised (AssertionError "handle lost ball") /\
  events run = [EvWaitForBallReturn p; race] /\
  now (final run) = now w + 60.
Proof.
  unfold ball_return, confirm, race. intros Hr Hc. run_method.
  rewrite (Util_first_two_timed_out env w _ _ 60 Hr Hc). simpl.
  repeat split; reflexivity.
Qed.

End StepB.

(** *** Step A: the confirmation wait *)

Section StepA.

Variable env : Env.
Variable r : EjectRequest.t.
Variable p : Process.
Variable ball : IncomingBall.t.
Variable w : World.
Variable d : Z.

Hypothesis timeout_d : EjectRequest.eject_timeout r = Some d.

Lemma step_A_confirmed (tc : Z) :
  completion env w (EjectRequest.confirm_future r) = Some tc ->
  tc <= deadline w d ->
  invoke (_handle_confirm env)
         [VSelf; VRequest r; VProcess p; VIncomingBall ball] w =
    mkRun (Returned true)
          (mkWorld (Z.max (now w) tc) (cancelled w) (next_obj w))
          [EvFirst [EjectRequest.confirm_future r] (Some d) false;
           EvEjectDone p].
Proof.
  intros Hc Ht. run_method. rewrite timeout_d.
  rewrite (Util_first_one_completed env w _ d tc false Hc Ht). simpl.
  reflexivity.
Qed.

Lemma step_A_ball_returned :
  completes_by env w (EjectRequest.confirm_future r) (deadline w d) = false ->
  is_ball_returned env p (deadline w d) = true ->
  invoke (_handle_confirm env)
         [VSelf; VRequest r; VProcess p; VIncomingBall ball] w =
    mkRun (Returned false)
          (mkWorld (deadline w d) (cancelled w) (next_obj w))
          [EvFirst [EjectRequest.confirm_future r] (Some d) false;
           EvIsBallReturned p true;
           EvEjectFailed p].
Proof.
  intros Hc Hb. run_method. rewrite timeout_d.
  rewrite (Util_first_one_timed_out env w _ d false Hc). simpl.
  rewrite Hb. simpl. reflexivity.
Qed.

(** Neither confirmed nor returned: Step B goes on from the deadline, with
    the confirmation future as it was. *)
Lemma step_A_undecided :
  completes_by env w (EjectRequest.confirm_future r) (deadline w d) = false ->
  is_ball_returned env p (deadline w d) = false ->
  let late := invoke (_handle_late_confirm_or_missing env)
                     [VSelf; VRequest r; VProcess p]
                     (mkWorld (deadline w d) (cancelled w) (next_obj w)) in
  invoke (_handle_confirm env)
         [VSelf; VRequest r; VProcess p; VIncomingBall ball] w =
    mkRun (outcome late) (final late)
          ([EvFirst [EjectRequest.confirm_future r] (Some d) false;
            EvIsBallReturned p false] ++ events late).
Proof.
  intros Hc Hb late. run_method. rewrite timeout_d.
  rewrite (Util_first_one_timed_out env w _ d false Hc). simpl.
  rewrite Hb. simpl. unfold late. split_runs; reflexivity.
Qed.

End StepA.

(** *** One physical attempt *)

Section Attempt.

Variable env : Env.
Variable r : EjectRequest.t.
Variable eject_try : Z.
Variable w : World.
Variable d : Z.

Hypothesis timeout_d : EjectRequest.eject_timeout r = Some d.

Let p : Process := next_obj w.
Let jammed : bool := is_jammed env p (now w).

Lemma attempt_ball_stays :
  completes_by env w (wait_for_ball_left env p) (deadline w d) = false ->
  invoke (_eject_ball env) [VSelf; VRequest r; VInt eject_try] w =
    mkRun (Returned false)
          (mkWorld (deadline w d)
                   (wait_for_ball_left env p :: cancelled w)
                   (S (next_obj w)))
          [EvStartEject p; EvIsJammed p jammed;
           EvEjectOneBall jammed eject_try; EvWaitForBallLeft p;
           EvFirst [wait_for_ball_left env p] (Some d) true;
           EvEjectFailed p].
Proof.
  unfold p, jammed. intros Hl. run_method. rewrite timeout_d.
  rewrite (Util_first_one_timed_out env
             (mkWorld (now w) (cancelled w) (S (next_obj w))) _ d true Hl).
  simpl. reflexivity.
Qed.

(** The ball left: the target is told, then the confirmation is waited
    for. *)
Lemma attempt_ball_left (tl : Z) :
  completion env w (wait_for_ball_left env p) = Some tl ->
  tl <= deadline w d ->
  let ball := IncomingBall.mk (ball_device env) (S (next_obj w))
                              (EjectRequest.confirm_future r) in
  let confirm := invoke (_handle_confirm env)
                        [VSelf; VRequest r; VProcess p; VIncomingBall ball]
                        (mkWorld (Z.max (now w) tl) (cancelled w)
                                 (S (S (next_obj w)))) in
  invoke (_eject_ball env) [VSelf; VRequest r; VInt eject_try] w =
    mkRun (outcome confirm) (final confirm)
          ([EvStartEject p; EvIsJammed p jammed;
            EvEjectOneBall jammed eject_try; EvWaitForBallLeft p;
            EvFirst [wait_for_ball_left env p] (Some d) true;
            EvAddIncomingBall (EjectRequest.target r) ball]
           ++ events confirm).
Proof.
  intros Hl Ht ball confirm. unfold p, jammed in *. run_method.
  rewrite timeout_d.
  rewrite (Util_first_one_completed env
             (mkWorld (now w) (cancelled w) (S (next_obj w))) _ d tl true
             Hl Ht).
  simpl. unfold confirm, ball. split_runs; reflexivity.
Qed.

End Attempt.

(** *** Every wait ends in one of three ways *)

Lemma Util_first_events (env : Env) (futures : list Future)
      (timeout : option Z) (cancel_others : bool) (w : World) :
  events (Util_first env futures timeout cancel_others w) =
    [EvFirst futures timeout cancel_others].
Proof.
  unfold Util_first.
  destruct (first_completed env w futures) as [[f t]|], timeout as [d|];
    try reflexivity.
  destruct (t <=? deadline w d); reflexivity.
Qed.

Lemma Util_first_outcome (env : Env) (futures : list Future)
      (timeout : option Z) (cancel_others : bool) (w : World) :
  match outcome (Util_first env futures timeout cancel_others w) with
  | Returned _ | Raised TimeoutError | Suspended => True
  | _ => False
  end.
Proof.
  unfold Util_first.
  destruct (first_completed env w futures) as [[f t]|], timeout as [d|];
    try exact I.
  destruct (t <=? deadline w d); exact I.
Qed.

(** A wait returns one of the futures it was given: the [Invalid state]
    branch of Step B is not reached. *)
Lemma first_completed_In (env : Env) (w : World) (futures : list Future)
      (f : Future) (t : Z) :
  first_completed env w futures = Some (f, t) -> In f futures.
Proof.
  induction futures as [|g rest IH]; simpl; [discriminate|].
  destruct (completion env w g) as [u|].
  - destruct (first_completed env w rest) as [[h v]|].
    + destruct (u <=? v); intros H; injection H as <- <-; auto.
    + intros H; injection H as <- <-; auto.
  - auto.
Qed.

Lemma Util_first_returns_member (env : Env) (futures : list Future)
      (timeout : option Z) (cancel_others : bool) (w : World) (f : Future) :
  outcome (Util_first env futures timeout cancel_others w) = Returned f ->
  In f futures.
Proof.
  unfold Util_first.
  destruct (first_completed env w futures) as [[g t]|] eqn:E.
  - apply first_completed_In in E.
    destruct timeout as [d|]; simpl.
    + destruct (t <=? deadline w d); simpl; intros H;
        [injection H as <-; exact E | discriminate].
    + intros H; injection H as <-; exact E.
  - destruct timeout; discriminate.
Qed.

(** The retry budget as the loop writes it: unset and [0] never exceed,
    any other bound is exceeded by the first try count above it. *)
Lemma tries_exceeded_unlimited (eject_try : Z) :
  tries_exceeded None eject_try = false /\
  tries_exceeded (Some 0) eject_try = false.
Proof.
  split; reflexivity.
Qed.

Lemma tries_exceeded_bound (n eject_try : Z) :
  n <> 0 ->
  tries_exceeded (Some n) eject_try = true <-> n < eject_try.
Proof.
  intros Hn. unfold tries_exceeded.
  destruct (n =? 0) eqn:E; [apply Z.eqb_eq in E; contradiction|].
  simpl. rewrite Z.gtb_ltb. apply Z.ltb_lt.
Qed.

(** Split on how the next wait of the goal ends. *)
Ltac split_wait :=
  match goal with
  | |- context [Util_first ?e ?fs ?t ?c ?w] =>
      let Hev := fresh "Hev" in
      let Hout := fresh "Hout" in
      pose proof (Util_first_events e fs t c w) as Hev;
      pose proof (Util_first_outcome e fs t c w) as Hout;
      destruct (Util_first e fs t c w) as [[?|[]| |] ? ?];
      simpl in Hev, Hout; try contradiction; subst; simpl
  end.

(** Split on the tests the goal is stuck on. *)
Ltac split_tests :=
  repeat match goal with
         | |- context [if ?b then _ else _] =>
             lazymatch b with
             | context [if _ then _ else _] => fail
             | _ => destruct b; simpl
             end
         end.

Section AttemptShape.

Variable env : Env.
Variable r : EjectRequest.t.
Variable eject_try : Z.
Variable w : World.

Let run := invoke (_eject_ball env) [VSelf; VRequest r; VInt eject_try] w.

(** The terminal calls of an attempt, by how it ends. *)
Lemma attempt_terminal_calls :
  filter is_terminal (events run) =
    match outcome run with
    | Returned true => [EvEjectDone (next_obj w)]
    | Returned false => [EvEjectFailed (next_obj w)]
    | _ => []
    end.
Proof.
  unfold run. run_method. unfold invoke. simpl. run_method.
  split_wait; try reflexivity.
  split_wait; try reflexivity.
  - split_tests; try reflexivity.
    unfold invoke. simpl. run_method.
    split_wait; try reflexivity.
    split_tests; reflexivity.
Qed.

End AttemptShape.

Section AttemptHandle.

Variable env : Env.
Variable r : EjectRequest.t.
Variable eject_try : Z.
Variable w : World.

Let run := invoke (_eject_ball env) [VSelf; VRequest r; VInt eject_try] w.

(** An attempt opens its handle first and opens no other; it neither
    waits for a ball nor stops the device. *)
Lemma attempt_opens_one_handle :
  hd_error (events run) = Some (EvStartEject (next_obj w)) /\
  count_events is_start_eject (events run) = 1%nat /\
  count_events is_stop (events run) = 0%nat /\
  count_events is_wait_for_ball (events run) = 0%nat.
Proof.
  unfold run, count_events. run_method. unfold invoke. simpl. run_method.
  split_wait; try (repeat split; reflexivity).
  split_wait; try (repeat split; reflexivity).
  split_tests; try (repeat split; reflexivity).
  unfold invoke. simpl. run_method.
  split_wait; try (repeat split; reflexivity).
  split_tests; repeat split; reflexivity.
Qed.

End AttemptHandle.

(** *** One turn of the eject loop *)

Section Loop.

Variable env : Env.
Variable r : EjectRequest.t.

(** What the loop makes of the end of an attempt: success returns, a
    failure goes to [_failed_eject] with one argument too many. *)
Lemma loop_iteration (fuel : nat) (eject_try : Z) (w : World) :
  _ejecting_loop env (S fuel) r eject_try w =
    match wait_for_ball env (now w) with
    | None => mkRun Suspended w [EvWaitForBall]
    | Some tb =>
        let w0 := mkWorld (Z.max (now w) tb) (cancelled w) (next_obj w) in
        let count := get_ball_count env (now w0) in
        if count =? 0 then
          mkRun (Raised (TypeError "_abort_eject" 2 3)) w0
                [EvWaitForBall; EvGetBallCount count]
        else
          let attempt :=
            invoke (_eject_ball env)
                   [VSelf; VRequest r; VInt eject_try] w0 in
          mkRun match outcome attempt with
                | Returned true => Returned tt
                | Returned false => Raised (TypeError "_failed_eject" 2 3)
                | Raised e => Raised e
                | Suspended => Suspended
                | OutOfFuel => OutOfFuel
                end
                (final attempt)
                ([EvWaitForBall; EvGetBallCount count] ++ events attempt)
    end.
Proof.
  cbn [_ejecting_loop].
  unfold bind at 1. unfold debug_log at 1, ret at 1.
  unfold bind at 1. unfold ball_count_handler_wait_for_ball.
  destruct (wait_for_ball env (now w)) as [tb|]; [|reflexivity].
  unfold bind at 1. unfold invoke at 1. simpl.
  unfold ret at 1. unfold bind at 1.
  unfold ball_count_handler_get_ball_count. simpl.
  destruct (get_ball_count env (Z.max (now w) tb) =? 0).
  - reflexivity.
  - unfold bind at 1. unfold debug_log at 1, ret at 1.
    unfold bind at 1.
    destruct (invoke (_eject_ball env) [VSelf; VRequest r; VInt eject_try]
                (mkWorld (Z.max (now w) tb) (cancelled w) (next_obj w)))
      as [[[|]|e| |] w1 evs]; simpl; rewrite ?app_nil_r; reflexivity.
Qed.

End Loop.

(** *** The ball does not leave *)

(** C8: in every physical attempt whose ball-left signal does not complete
    within the request's eject timeout, [eject_failed()] is called on the
    attempt handle and the attempt returns failure; no IncomingBall is
    registered at the target and the confirmation handling is not entered:
    the calls of the attempt end with the ball-left wait and
    [eject_failed()]. *)
Theorem ball_left_timeout_fails_attempt :
  forall (env : Env) (r : EjectRequest.t) (eject_try : Z) (w : World) (d : Z),
    EjectRequest.eject_timeout r = Some d ->
    completes_by env w (wait_for_ball_left env (next_obj w)) (deadline w d)
      = false ->
    let p := next_obj w in
    let jammed := is_jammed env p (now w) in
    let run := invoke (_eject_ball env) [VSelf; VRequest r; VInt eject_try] w in
    outcome run = Returned false /\
    events run =
      [EvStartEject p; EvIsJammed p jammed; EvEjectOneBall jammed eject_try;
       EvWaitForBallLeft p;
       EvFirst [wait_for_ball_left env p] (Some d) true;
       EvEjectFailed p] /\
    count_events is_add_incoming_ball (events run) = 0%nat /\
    now (final run) = deadline w d.
Proof.
  intros env r eject_try w d Hd Hl p jammed run.
  unfold run. rewrite (attempt_ball_stays env r eject_try w d Hd Hl).
  repeat split; reflexivity.
Qed.

Lemma ball_left_timeout_fails_attempt_witness :
  EjectRequest.eject_timeout (request (Some 2)) = Some 10 /\
  completes_by stuck_ball start_world (wait_for_ball_left stuck_ball first_handle)
               (deadline start_world 10) = false /\
  outcome (invoke (_eject_ball stuck_ball)
                  [VSelf; VRequest (request (Some 2)); VInt 0] start_world)
    = Returned false.
Proof.
  split; [reflexivity | split; [reflexivity |]].
  apply (ball_left_timeout_fails_attempt
           stuck_ball (request (Some 2)) 0 start_world 10);
    reflexivity.
Defined.

(** *** The confirmation wait *)

(** C4: in the primary confirmation wait (Step A), when the confirmation
    signal completes within the eject timeout, [eject_done()] is called on
    the attempt handle and the attempt result is success; when the wait
    times out and [is_ball_returned()] is true, [eject_failed()] is called,
    the result is failure and the late-confirmation race (Step B) is not
    entered: no [wait_for_ball_return()] and no second wait. *)
Theorem confirmation_wait :
  forall (env : Env) (r : EjectRequest.t) (p : Process)
         (ball : IncomingBall.t) (w : World) (d : Z),
    EjectRequest.eject_timeout r = Some d ->
    let confirm := EjectRequest.confirm_future r in
    let run := invoke (_handle_confirm env)
                      [VSelf; VRequest r; VProcess p; VIncomingBall ball] w in
    (completes_by env w confirm (deadline w d) = true ->
     outcome run = Returned true /\
     events run = [EvFirst [confirm] (Some d) false; EvEjectDone p]) /\
    (completes_by env w confirm (deadline w d) = false ->
     is_ball_returned env p (deadline w d) = true ->
     outcome run = Returned false /\
     events run = [EvFirst [confirm] (Some d) false;
                   EvIsBallReturned p true;
                   EvEjectFailed p] /\
     count_events is_wait_for_ball_return (events run) = 0%nat).
Proof.
  intros env r p ball w d Hd confirm run. split.
  - intros Hc. unfold completes_by in Hc.
    destruct (completion env w confirm) as [tc|] eqn:Ec; [|discriminate].
    apply Z.leb_le in Hc. unfold run.
    rewrite (step_A_confirmed env r p ball w d Hd tc Ec Hc).
    split; reflexivity.
  - intros Hc Hb. unfold run.
    rewrite (step_A_ball_returned env r p ball w d Hd Hc Hb).
    repeat split; reflexivity.
Qed.

Lemma confirmation_wait_witness :
  (EjectRequest.eject_timeout (request None) = Some 10 /\
   completes_by delivered start_world 7%nat (deadline start_world 10) = true /\
   outcome (invoke (_handle_confirm delivered)
                   [VSelf; VRequest (request None); VProcess first_handle;
                    VIncomingBall first_ball] start_world)
     = Returned true) /\
  (completes_by bounced_back start_world 7%nat (deadline start_world 10)
     = false /\
   is_ball_returned bounced_back first_handle (deadline start_world 10) = true /\
   outcome (invoke (_handle_confirm bounced_back)
                   [VSelf; VRequest (request None); VProcess first_handle;
                    VIncomingBall first_ball] start_world)
     = Returned false).
Proof.
  split.
  - split; [reflexivity | split; [reflexivity |]].
    apply (proj1 (confirmation_wait delivered (request None) first_handle
                    first_ball start_world 10 eq_refl)).
    reflexivity.
  - split; [reflexivity | split; [reflexivity |]].
    apply (proj2 (confirmation_wait bounced_back (request None) first_handle
                    first_ball start_world 10 eq_refl));
      reflexivity.
Defined.

(** *** The late-confirmation race *)

(** C5: in the late-confirmation race (Step B) the ball-returned signal and
    the confirmation signal are raced with a deadline of 60 time units,
    whatever the eject timeout of the request (the run depends on the
    request through its confirmation future alone); when the confirmation
    signal wins, [eject_done()] is called and the attempt result is success;
    when the ball-returned signal wins, [eject_failed()] is called and the
    attempt result is failure. *)
Theorem late_confirmation_race :
  forall (env : Env) (r : EjectRequest.t) (p : Process) (w : World),
    let ball_return := wait_for_ball_return env p in
    let confirm := EjectRequest.confirm_future r in
    let race := EvFirst [ball_return; confirm] (Some 60) true in
    let run := invoke (_handle_late_confirm_or_missing env)
                      [VSelf; VRequest r; VProcess p] w in
    (forall tc,
        completion env w confirm = Some tc ->
        tc <= now w + 60 ->
        (forall tr, completion env w ball_return = Some tr -> tc < tr) ->
        outcome run = Returned true /\
        events run = [EvWaitForBallReturn p; race; EvEjectDone p]) /\
    (forall tr,
        completion env w ball_return = Some tr ->
        tr <= now w + 60 ->
        (forall tc, completion env w confirm = Some tc -> tr < tc) ->
        outcome run = Returned false /\
        events run = [EvWaitForBallReturn p; race; EvEjectFailed p]) /\
    (forall r',
        EjectRequest.confirm_future r' = confirm ->
        invoke (_handle_late_confirm_or_missing env)
               [VSelf; VRequest r'; VProcess p] w = run).
Proof.
  intros env r p w ball_return confirm race run. repeat split.
  - apply (step_B_confirm_wins env r p w tc); assumption.
  - apply (step_B_confirm_wins env r p w tc); assumption.
  - apply (step_B_return_wins env r p w tr); assumption.
  - apply (step_B_return_wins env r p w tr); assumption.
  - intros r' Hr'. unfold run, invoke. simpl.
    unfold EjectRequest.wait_for_eject_confirm. rewrite Hr'. reflexivity.
Qed.

Lemma late_confirmation_race_witness :
  (completion late_confirm step_B_world 7%nat = Some 18 /\
   18 <= now step_B_world + 60 /\
   outcome (invoke (_handle_late_confirm_or_missing late_confirm)
                   [VSelf; VRequest (request None); VProcess first_handle]
                   step_B_world)
     = Returned true) /\
  (completion late_return step_B_world 2100%nat = Some 18 /\
   18 <= now step_B_world + 60 /\
   outcome (invoke (_handle_late_confirm_or_missing late_return)
                   [VSelf; VRequest (request None); VProcess first_handle]
                   step_B_world)
     = Returned false) /\
  (EjectRequest.confirm_future patient_request
     = EjectRequest.confirm_future (request None) /\
   invoke (_handle_late_confirm_or_missing late_confirm)
          [VSelf; VRequest patient_request; VProcess first_handle]
          step_B_world =
   invoke (_handle_late_confirm_or_missing late_confirm)
          [VSelf; VRequest (request None); VProcess first_handle]
          step_B_world).
Proof.
  split; [|split].
  - split; [reflexivity | split; [simpl; lia |]].
    apply (proj1 (late_confirmation_race late_confirm (request None)
                    first_handle step_B_world) 18).
    + reflexivity.
    + simpl; lia.
    + intros tr H. vm_compute in H. discriminate H.
  - split; [reflexivity | split; [simpl; lia |]].
    apply (proj1 (proj2 (late_confirmation_race late_return (request None)
                           first_handle step_B_world)) 18).
    + reflexivity.
    + simpl; lia.
    + intros tc H. vm_compute in H. discriminate H.
  - split; [reflexivity |].
    apply (proj2 (proj2 (late_confirmation_race late_confirm (request None)
                           first_handle step_B_world)) patient_request).
    reflexivity.
Defined.

(** *** The lost ball *)

(** C6: when neither the confirmation signal nor the ball-returned signal
    resolves within the 60 units of Step B, the lost-ball condition is
    raised: the attempt ends in the exception [AssertionError("handle lost
    ball")], not in a returned failure, and the exception leaves the eject
    loop, which opens no second attempt. *)
Theorem lost_ball_is_raised :
  forall (env : Env) (r : EjectRequest.t) (w : World) (fuel : nat)
         (tb d tl : Z),
    let p := next_obj w in
    let ball_left := wait_for_ball_left env p in
    let ball_return := wait_for_ball_return env p in
    let confirm := EjectRequest.confirm_future r in
    let t0 := Z.max (now w) tb in
    let t1 := Z.max t0 tl in
    let t2 := t1 + Z.max 0 d in
    let jammed := is_jammed env p t0 in
    let ball := IncomingBall.mk (ball_device env) (S p) confirm in
    wait_for_ball env (now w) = Some tb ->
    get_ball_count env t0 <> 0 ->
    EjectRequest.eject_timeout r = Some d ->
    completion env w ball_left = Some tl ->
    tl <= t0 + Z.max 0 d ->
    is_ball_returned env p t2 = false ->
    completes_by env w ball_return (t2 + 60) = false ->
    completes_by env w confirm (t2 + 60) = false ->
    let attempt := invoke (_eject_ball env) [VSelf; VRequest r; VInt 0]
                          (mkWorld t0 (cancelled w) (next_obj w)) in
    let run := _ejecting env (S fuel) r w in
    outcome attempt = Raised (AssertionError "handle lost ball") /\
    outcome run = Raised (AssertionError "handle lost ball") /\
    events run =
      [EvWaitForBall; EvGetBallCount (get_ball_count env t0);
       EvStartEject p; EvIsJammed p jammed; EvEjectOneBall jammed 0;
       EvWaitForBallLeft p; EvFirst [ball_left] (Some d) true;
       EvAddIncomingBall (EjectRequest.target r) ball;
       EvFirst [confirm] (Some d) false; EvIsBallReturned p false;
       EvWaitForBallReturn p; EvFirst [ball_return; confirm] (Some 60) true] /\
    count_events is_start_eject (events run) = 1%nat /\
    now (final run) = t2 + 60.
Proof.
  intros env r w fuel tb d tl p ball_left ball_return confirm t0 t1 t2 jammed
         ball Hwait Hcount Hd Hleft Htl Hret Hbr Hcf attempt run.
  set (w0 := mkWorld t0 (cancelled w) (next_obj w)) in *.
  set (w2 := mkWorld t1 (cancelled w) (S (S (next_obj w)))).
  set (w3 := mkWorld t2 (cancelled w) (S (S (next_obj w)))).
  assert (Hcf2 : completes_by env w2 confirm (deadline w2 d) = false).
  { apply (completes_by_earlier env w confirm t2 (t2 + 60)); [lia | exact Hcf]. }
  set (late := invoke (_handle_late_confirm_or_missing env)
                      [VSelf; VRequest r; VProcess p] w3).
  set (confirmation := invoke (_handle_confirm env)
                         [VSelf; VRequest r; VProcess p; VIncomingBall ball]
                         w2).
  assert (HB : outcome late = Raised (AssertionError "handle lost ball") /\
               events late =
                 [EvWaitForBallReturn p;
                  EvFirst [ball_return; confirm] (Some 60) true] /\
               now (final late) = t2 + 60)
    by exact (step_B_lost_ball env r p w3 Hbr Hcf).
  assert (HA : confirmation =
               mkRun (outcome late) (final late)
                     ([EvFirst [confirm] (Some d) false;
                       EvIsBallReturned p false] ++ events late))
    by exact (step_A_undecided env r p ball w2 d Hd Hcf2 Hret).
  assert (HE : attempt =
               mkRun (outcome confirmation) (final confirmation)
                     ([EvStartEject p; EvIsJammed p jammed;
                       EvEjectOneBall jammed 0; EvWaitForBallLeft p;
                       EvFirst [ball_left] (Some d) true;
                       EvAddIncomingBall (EjectRequest.target r) ball]
                      ++ events confirmation))
    by exact (attempt_ball_left env r 0 w0 d Hd tl Hleft Htl).
  destruct HB as (HBo & HBe & HBn).
  rewrite HA in HE. simpl in HE. rewrite HBo, HBe in HE. simpl in HE.
  split; [rewrite HE; reflexivity|].
  unfold run, _ejecting. rewrite loop_iteration. rewrite Hwait. cbv zeta.
  simpl now. fold t0. fold w0.
  destruct (get_ball_count env t0 =? 0) eqn:E;
    [apply Z.eqb_eq in E; contradiction|].
  fold attempt. rewrite HE. simpl. repeat split; try reflexivity.
  exact HBn.
Qed.

Lemma lost_ball_is_raised_witness :
  wait_for_ball lost_ball (now start_world) = Some 0 /\
  get_ball_count lost_ball 0 <> 0 /\
  completion lost_ball start_world (wait_for_ball_left lost_ball first_handle)
    = Some 3 /\
  completes_by lost_ball start_world
               (wait_for_ball_return lost_ball first_handle) 73 = false /\
  completes_by lost_ball start_world 7%nat 73 = false /\
  outcome (_ejecting lost_ball 4 (request (Some 1)) start_world)
    = Raised (AssertionError "handle lost ball").
Proof.
  repeat (split; [first [reflexivity | discriminate]|]).
  apply (lost_ball_is_raised lost_ball (request (Some 1)) start_world 3
                             0 10 3);
    first [reflexivity | simpl; lia | discriminate].
Defined.

(** *** The IncomingBall at the target *)

(** The confirmation handling begins with the wait on the confirmation
    future of the request and registers nothing at the target. *)
Lemma confirmation_begins_with_wait (env : Env) (r : EjectRequest.t)
      (p : Process) (ball : IncomingBall.t) (w : World) :
  exists later,
    events (invoke (_handle_confirm env)
                   [VSelf; VRequest r; VProcess p; VIncomingBall ball] w) =
      EvFirst [EjectRequest.confirm_future r] (EjectRequest.eject_timeout r)
              false :: later /\
    count_events is_add_incoming_ball later = 0%nat.
Proof.
  run_method.
  split_wait; try (eexists; split; reflexivity).
  split_tests; try (eexists; split; reflexivity).
  unfold invoke. simpl. run_method.
  split_wait; try (eexists; split; reflexivity).
  split_tests; eexists; split; reflexivity.
Qed.

(** C10: in every attempt whose ball-left signal completes in time, an
    IncomingBall is registered at the target of the request before the wait
    on the confirmation begins, once; its confirmation future is the
    confirmation future of the request itself (the same object, at the same
    address) and its source is the device of this handler. *)
Theorem incoming_ball_registered_at_target :
  forall (env : Env) (r : EjectRequest.t) (eject_try : Z) (w : World)
         (d tl : Z),
    let p := next_obj w in
    let ball_left := wait_for_ball_left env p in
    let jammed := is_jammed env p (now w) in
    EjectRequest.eject_timeout r = Some d ->
    completion env w ball_left = Some tl ->
    tl <= deadline w d ->
    let run := invoke (_eject_ball env) [VSelf; VRequest r; VInt eject_try] w in
    exists (ball : IncomingBall.t) (later : list Event),
      events run =
        [EvStartEject p; EvIsJammed p jammed; EvEjectOneBall jammed eject_try;
         EvWaitForBallLeft p; EvFirst [ball_left] (Some d) true;
         EvAddIncomingBall (EjectRequest.target r) ball;
         EvFirst [EjectRequest.confirm_future r] (Some d) false] ++ later /\
      IncomingBall.confirm_future ball = EjectRequest.confirm_future r /\
      IncomingBall.source ball = ball_device env /\
      count_events is_add_incoming_ball (events run) = 1%nat.
Proof.
  intros env r eject_try w d tl p ball_left jammed Hd Hleft Htl run.
  set (ball := IncomingBall.mk (ball_device env) (S (next_obj w))
                               (EjectRequest.confirm_future r)).
  set (w2 := mkWorld (Z.max (now w) tl) (cancelled w) (S (S (next_obj w)))).
  set (confirmation := invoke (_handle_confirm env)
                         [VSelf; VRequest r; VProcess p; VIncomingBall ball]
                         w2).
  assert (HE : run =
               mkRun (outcome confirmation) (final confirmation)
                     ([EvStartEject p; EvIsJammed p jammed;
                       EvEjectOneBall jammed eject_try; EvWaitForBallLeft p;
                       EvFirst [ball_left] (Some d) true;
                       EvAddIncomingBall (EjectRequest.target r) ball]
                      ++ events confirmation))
    by exact (attempt_ball_left env r eject_try w d Hd tl Hleft Htl).
  destruct (confirmation_begins_with_wait env r p ball w2)
    as (later & Hev & Hnone).
  fold confirmation in Hev. rewrite Hd in Hev.
  exists ball, later. rewrite HE. simpl. rewrite Hev.
  repeat split; try reflexivity.
  unfold count_events in *. simpl. rewrite Hnone. reflexivity.
Qed.

Lemma incoming_ball_registered_at_target_witness :
  EjectRequest.eject_timeout (request None) = Some 10 /\
  completion delivered start_world (wait_for_ball_left delivered first_handle)
    = Some 3 /\
  3 <= deadline start_world 10 /\
  exists (ball : IncomingBall.t) (later : list Event),
    events (invoke (_eject_ball delivered)
                   [VSelf; VRequest (request None); VInt 0] start_world) =
      [EvStartEject first_handle; EvIsJammed first_handle false;
       EvEjectOneBall false 0; EvWaitForBallLeft first_handle;
       EvFirst [1100%nat] (Some 10) true;
       EvAddIncomingBall 2%nat ball;
       EvFirst [7%nat] (Some 10) false] ++ later /\
    IncomingBall.confirm_future ball = 7%nat /\
    IncomingBall.source ball = 1%nat /\
    count_events is_add_incoming_ball
      (events (invoke (_eject_ball delivered)
                      [VSelf; VRequest (request None); VInt 0] start_world))
      = 1%nat.
Proof.
  split; [reflexivity | split; [reflexivity | split]].
  - unfold deadline; simpl; lia.
  - apply (incoming_ball_registered_at_target
             delivered (request None) 0 start_world 10 3);
      first [reflexivity | unfold deadline; simpl; lia].
Defined.

(** *** The terminal call on the attempt handle *)

(** An attempt has no loop of its own: it never runs out of fuel. *)
Lemma attempt_not_out_of_fuel (env : Env) (r : EjectRequest.t)
      (eject_try : Z) (w : World) :
  outcome (invoke (_eject_ball env) [VSelf; VRequest r; VInt eject_try] w)
    <> OutOfFuel.
Proof.
  run_method. unfold invoke. simpl. run_method.
  split_wait; try discriminate.
  split_wait; try discriminate.
  split_tests; try discriminate.
  unfold invoke. simpl. run_method.
  split_wait; try discriminate.
  split_tests; discriminate.
Qed.

(** C7, as stated, fails where the ball is lost: the attempt opens its
    handle, the race of Step B times out, the attempt ends in
    [AssertionError("handle lost ball")] and neither [eject_failed()] nor
    [eject_done()] was called on the handle. *)
Lemma lost_ball_attempt_makes_no_terminal_call :
  let run := invoke (_eject_ball lost_ball)
                    [VSelf; VRequest (request (Some 1)); VInt 0]
                    start_world in
  hd_error (events run) = Some (EvStartEject first_handle) /\
  outcome run = Raised (AssertionError "handle lost ball") /\
  count_events (is_terminal_on first_handle) (events run) = 0%nat.
Proof.
  repeat split; reflexivity.
Qed.

(** C7, amended: every physical attempt opens one handle, and an attempt
    that returns a result calls exactly one of [eject_failed()] and
    [eject_done()], once and on that handle: [eject_done()] when it returns
    success, [eject_failed()] when it returns failure.  An attempt that
    ends in an exception or never resumes makes no terminal call. *)
Theorem terminal_call_of_returned_attempt :
  forall (env : Env) (r : EjectRequest.t) (eject_try : Z) (w : World),
    let p := next_obj w in
    let run := invoke (_eject_ball env) [VSelf; VRequest r; VInt eject_try] w in
    hd_error (events run) = Some (EvStartEject p) /\
    count_events is_start_eject (events run) = 1%nat /\
    filter is_terminal (events run) =
      match outcome run with
      | Returned true => [EvEjectDone p]
      | Returned false => [EvEjectFailed p]
      | _ => []
      end.
Proof.
  intros env r eject_try w p run.
  destruct (attempt_opens_one_handle env r eject_try w) as (Hhd & Hone & _).
  repeat split; [exact Hhd | exact Hone |].
  exact (attempt_terminal_calls env r eject_try w).
Qed.

(** *** The arity of the abort and failed-eject hooks *)

(** C3: [_abort_eject] and [_failed_eject] are defined with the parameters
    [self] and [eject_request]; the eject loop calls both with
    [eject_request] and [eject_try].  Each such call raises [TypeError];
    so a turn of the loop that finds no ball after the prepare step, and a
    turn whose attempt fails, both end the loop with that error: the loop
    never starts a second turn (more fuel than one turn changes nothing),
    waits for a ball at most once, opens at most one attempt and never
    calls [stop()]. *)
Theorem hooks_called_with_one_argument_too_many :
  forall (env : Env) (r : EjectRequest.t) (eject_try : Z) (w : World)
         (fuel : nat),
    params _abort_eject = ["self"; "eject_request"] /\
    params _failed_eject = ["self"; "eject_request"] /\
    invoke _abort_eject [VSelf; VRequest r; VInt eject_try] w =
      mkRun (Raised (TypeError "_abort_eject" 2 3)) w [] /\
    invoke _failed_eject [VSelf; VRequest r; VInt eject_try] w =
      mkRun (Raised (TypeError "_failed_eject" 2 3)) w [] /\
    let run := _ejecting_loop env (S fuel) r eject_try w in
    (forall tb,
        wait_for_ball env (now w) = Some tb ->
        get_ball_count env (Z.max (now w) tb) = 0 ->
        outcome run = Raised (TypeError "_abort_eject" 2 3) /\
        events run = [EvWaitForBall; EvGetBallCount 0]) /\
    (forall tb,
        wait_for_ball env (now w) = Some tb ->
        get_ball_count env (Z.max (now w) tb) <> 0 ->
        let attempt :=
          invoke (_eject_ball env) [VSelf; VRequest r; VInt eject_try]
                 (mkWorld (Z.max (now w) tb) (cancelled w) (next_obj w)) in
        outcome attempt = Returned false ->
        outcome run = Raised (TypeError "_failed_eject" 2 3) /\
        events run =
          [EvWaitForBall;
           EvGetBallCount (get_ball_count env (Z.max (now w) tb))]
          ++ events attempt) /\
    run = _ejecting_loop env 1 r eject_try w /\
    outcome run <> OutOfFuel /\
    (count_events is_wait_for_ball (events run) <= 1)%nat /\
    (count_events is_start_eject (events run) <= 1)%nat /\
    count_events is_stop (events run) = 0%nat.
Proof.
  intros env r eject_try w fuel.
  do 4 (split; [reflexivity|]).
  intros run. unfold run.
  rewrite (loop_iteration env r fuel), (loop_iteration env r 0).
  split; [|split]; [| |split; [reflexivity|]].
  - intros tb Hwait Hzero. rewrite Hwait. simpl. rewrite Hzero. simpl.
    split; reflexivity.
  - cbv zeta. intros tb Hwait Hcount Hfailed. rewrite Hwait. simpl.
    destruct (get_ball_count env (Z.max (now w) tb) =? 0) eqn:E;
      [apply Z.eqb_eq in E; contradiction|].
    simpl. rewrite Hfailed. split; reflexivity.
  - destruct (wait_for_ball env (now w)) as [tb|]; simpl.
    + destruct (get_ball_count env (Z.max (now w) tb) =? 0); simpl.
      * repeat split; try discriminate; unfold count_events; simpl; lia.
      * pose proof (attempt_not_out_of_fuel env r eject_try
                      (mkWorld (Z.max (now w) tb) (cancelled w) (next_obj w)))
          as Hfuel.
        destruct (attempt_opens_one_handle env r eject_try
                    (mkWorld (Z.max (now w) tb) (cancelled w) (next_obj w)))
          as (_ & Hone & Hstop & Hball).
        unfold count_events in *. simpl.
        rewrite Hone, Hstop, Hball.
        repeat split; try lia.
        destruct (outcome (invoke (_eject_ball env)
                             [VSelf; VRequest r; VInt eject_try]
                             (mkWorld (Z.max (now w) tb) (cancelled w)
                                      (next_obj w))))
          as [[|]|e| |]; try discriminate.
        contradiction.
    + repeat split; try discriminate; unfold count_events; simpl; lia.
Qed.

Lemma hooks_called_with_one_argument_too_many_witness :
  (wait_for_ball stolen_ball (now start_world) = Some 0 /\
   get_ball_count stolen_ball (Z.max (now start_world) 0) = 0 /\
   outcome (_ejecting_loop stolen_ball 3 (request (Some 2)) 0 start_world)
     = Raised (TypeError "_abort_eject" 2 3)) /\
  (wait_for_ball stuck_ball (now start_world) = Some 0 /\
   get_ball_count stuck_ball (Z.max (now start_world) 0) <> 0 /\
   outcome (invoke (_eject_ball stuck_ball)
                   [VSelf; VRequest (request (Some 2)); VInt 0] start_world)
     = Returned false /\
   outcome (_ejecting_loop stuck_ball 3 (request (Some 2)) 0 start_world)
     = Raised (TypeError "_failed_eject" 2 3)).
Proof.
  split.
  - destruct (hooks_called_with_one_argument_too_many
                stolen_ball (request (Some 2)) 0 start_world 2)
      as (_ & _ & _ & _ & Habort & _).
    split; [reflexivity | split; [reflexivity |]].
    apply (Habort 0); reflexivity.
  - destruct (hooks_called_with_one_argument_too_many
                stuck_ball (request (Some 2)) 0 start_world 2)
      as (_ & _ & _ & _ & _ & Hfailed & _).
    split; [reflexivity | split; [discriminate | split; [reflexivity |]]].
    apply (Hfailed 0); first [reflexivity | discriminate].
Defined.

(** *** The eject loop on a ball that does not leave, or is gone *)

(** C1, on the code: with [max_tries = N] and a ball that never leaves, the
    first attempt fails, the call of [_failed_eject] raises [TypeError] and
    the loop ends there: one attempt was made and [stop()] was never called,
    whatever [N] and however much fuel the loop is given. *)
Theorem stuck_ball_never_stops_device :
  forall (N : Z) (fuel : nat),
    let run := _ejecting stuck_ball (S fuel) (request (Some N)) start_world in
    outcome run = Raised (TypeError "_failed_eject" 2 3) /\
    events run =
      [EvWaitForBall; EvGetBallCount 1; EvStartEject first_handle;
       EvIsJammed first_handle false; EvEjectOneBall false 0;
       EvWaitForBallLeft first_handle; EvFirst [1100%nat] (Some 10) true;
       EvEjectFailed first_handle] /\
    count_events is_start_eject (events run) = 1%nat /\
    count_events is_stop (events run) = 0%nat.
Proof.
  intros N fuel run. unfold run, _ejecting. rewrite loop_iteration.
  repeat split; reflexivity.
Qed.

(** C2, on the code: when the ball count read after the prepare step is
    zero, the call of [_abort_eject] raises [TypeError] and the loop ends
    there; it does not go back to wait for a ball.  No attempt is made. *)
Theorem stolen_ball_ends_loop :
  forall (max_tries : option Z) (fuel : nat),
    let run :=
      _ejecting stolen_ball (S fuel) (request max_tries) start_world in
    outcome run = Raised (TypeError "_abort_eject" 2 3) /\
    events run = [EvWaitForBall; EvGetBallCount 0] /\
    count_events is_wait_for_ball (events run) = 1%nat /\
    count_events is_start_eject (events run) = 0%nat.
Proof.
  intros max_tries fuel run. unfold run, _ejecting. rewrite loop_iteration.
  repeat split; reflexivity.
Qed.

(** C9, on the code: with [max_tries] unset or [0] and a ball that never
    leaves, the device is not stopped, but the loop does not retry either:
    the first failed attempt ends it with the [TypeError] of the call of
    [_failed_eject], after one wait for a ball and one attempt. *)
Theorem unlimited_tries_not_retried :
  forall (fuel : nat),
    let unset := _ejecting stuck_ball (S fuel) (request None) start_world in
    let zero := _ejecting stuck_ball (S fuel) (request (Some 0)) start_world in
    outcome unset = Raised (TypeError "_failed_eject" 2 3) /\
    count_events is_wait_for_ball (events unset) = 1%nat /\
    count_events is_start_eject (events unset) = 1%nat /\
    count_events is_stop (events unset) = 0%nat /\
    outcome zero = Raised (TypeError "_failed_eject" 2 3) /\
    count_events is_wait_for_ball (events zero) = 1%nat /\
    count_events is_start_eject (events zero) = 1%nat /\
    count_events is_stop (events zero) = 0%nat.
Proof.
  intros fuel unset zero. unfold unset, zero, _ejecting.
  rewrite !loop_iteration. repeat split; reflexivity.
Qed.

(** ** More of the handler *)

(** *** What a wait leaves behind *)

Lemma Util_first_facts (env : Env) (futures : list Future)
      (timeout : option Z) (cancel_others : bool) (w : World) :
  let r := Util_first env futures timeout cancel_others w in
  events r = [EvFirst futures timeout cancel_others] /\
  next_obj (final r) = next_obj w /\
  now w <= now (final r) /\
  (forall d, timeout = Some d -> now (final r) <= deadline w d) /\
  (cancel_others = false -> cancelled (final r) = cancelled w) /\
  match outcome r with
  | Returned f => In f futures
  | Raised e => e = TimeoutError /\ timeout <> None
  | Suspended => timeout = None
  | OutOfFuel => False
  end.
Proof.
  unfold Util_first, deadline.
  destruct (first_completed env w futures) as [[f t]|] eqn:E;
    [apply first_completed_In in E|];
    destruct timeout as [d|];
    try (destruct (t <=? now w + Z.max 0 d) eqn:Ht;
         [apply Z.leb_le in Ht | apply Z.leb_gt in Ht]);
    simpl; repeat split; intros; subst;
    try match goal with
        | H : Some _ = Some _ |- _ => injection H as <-
        end;
    try discriminate; try assumption; try reflexivity; try lia.
Qed.

(** Split on how the next wait of the goal ends, keeping what is known of
    the world it leaves. *)
Ltac split_wait_facts :=
  match goal with
  | |- context [Util_first ?e ?fs ?t ?c ?w] =>
      let H := fresh "H" in
      let Hev := fresh "Hev" in
      let Hobj := fresh "Hobj" in
      let Hnow := fresh "Hnow" in
      let Hdl := fresh "Hdl" in
      let Hcan := fresh "Hcan" in
      let Hout := fresh "Hout" in
      pose proof (Util_first_facts e fs t c w) as H;
      cbv zeta in H;
      destruct (Util_first e fs t c w) as [[?|?| |] ? ?];
      simpl in H;
      destruct H as (Hev & Hobj & Hnow & Hdl & Hcan & Hout);
      try contradiction;
      try match type of Hout with
          | _ /\ _ => destruct Hout as [-> Hout]
          end;
      subst; simpl
  end.

(** Split on the tests the goal is stuck on, keeping how they came out. *)
Ltac split_tests_eqn :=
  repeat match goal with
         | |- context [if ?b then _ else _] =>
             lazymatch b with
             | context [if _ then _ else _] => fail
             | _ => destruct b eqn:?; simpl
             end
         end.

(** Follow an attempt down every path. *)
Ltac every_path :=
  run_method; unfold invoke; simpl; run_method;
  repeat first [ progress split_wait_facts
               | progress split_tests_eqn
               | progress (unfold invoke; simpl; run_method) ].

(** *** How an attempt can end *)





(** Use the deadline of every wait met. *)
Ltac use_deadlines :=
  repeat match goal with
         | H : forall d : Z, Some _ = Some d -> _ |- _ =>
             specialize (H _ eq_refl)
         | H : Some _ <> None |- _ => clear H
         | H : None <> None |- _ => destruct (H eq_refl)
         | H : Some _ = None |- _ => discriminate H
         end;
  unfold deadline in *; simpl in *.

(** X2: with an eject timeout set every wait of an attempt has a deadline: the
    attempt does not hang, and it is over within twice the eject timeout
    plus the 60 units of the late-confirmation race. *)
Theorem attempt_ends_within_budget :
  forall (env : Env) (r : EjectRequest.t) (eject_try : Z) (w : World) (d : Z),
    EjectRequest.eject_timeout r = Some d ->
    let run := invoke (_eject_ball env) [VSelf; VRequest r; VInt eject_try] w in
    outcome run <> Suspended /\
    now w <= now (final run) <= now w + 2 * Z.max 0 d + 60.
Proof.
  intros env [max_tries timeout target mechanical confirm] eject_try w d Hd.
  simpl in Hd. subst timeout. cbv zeta.
  replace (2 * Z.max 0 d) with (Z.max 0 d + Z.max 0 d) by lia.
  every_path; use_deadlines; split; first [discriminate | lia].
Qed.

Lemma attempt_ends_within_budget_witness :
  EjectRequest.eject_timeout (request None) = Some 10 /\
  now (final (invoke (_eject_ball lost_ball)
                     [VSelf; VRequest (request None); VInt 0] start_world))
    <= now start_world + 2 * Z.max 0 10 + 60.
Proof.
  split; [reflexivity|].
  apply (attempt_ends_within_budget lost_ball (request None) 0 start_world 10).
  reflexivity.
Defined.



(** *** The eject that succeeds *)

(** X4: when a ball is there, leaves in time and is confirmed in time, the
    eject loop returns after one attempt that ends with [eject_done()];
    neither hook is called, nothing is cancelled and the clock stands at
    the confirmation. *)
Theorem confirmed_eject_returns :
  forall (env : Env) (r : EjectRequest.t) (w : World) (fuel : nat)
         (tb d tl tc : Z),
    let p := next_obj w in
    let ball_left := wait_for_ball_left env p in
    let confirm := EjectRequest.confirm_future r in
    let t0 := Z.max (now w) tb in
    let t1 := Z.max t0 tl in
    let jammed := is_jammed env p t0 in
    let ball := IncomingBall.mk (ball_device env) (S p) confirm in
    wait_for_ball env (now w) = Some tb ->
    get_ball_count env t0 <> 0 ->
    EjectRequest.eject_timeout r = Some d ->
    completion env w ball_left = Some tl ->
    tl <= t0 + Z.max 0 d ->
    completion env w confirm = Some tc ->
    tc <= t1 + Z.max 0 d ->
    _ejecting env (S fuel) r w =
      mkRun (Returned tt)
            (mkWorld (Z.max t1 tc) (cancelled w) (S (S (next_obj w))))
            [EvWaitForBall; EvGetBallCount (get_ball_count env t0);
             EvStartEject p; EvIsJammed p jammed; EvEjectOneBall jammed 0;
             EvWaitForBallLeft p; EvFirst [ball_left] (Some d) true;
             EvAddIncomingBall (EjectRequest.target r) ball;
             EvFirst [confirm] (Some d) false; EvEjectDone p].
Proof.
  intros env r w fuel tb d tl tc p ball_left confirm t0 t1 jammed ball
         Hwait Hcount Hd Hleft Htl Hconf Htc.
  set (w0 := mkWorld t0 (cancelled w) (next_obj w)).
  set (w2 := mkWorld t1 (cancelled w) (S (S (next_obj w)))).
  set (attempt := invoke (_eject_ball env) [VSelf; VRequest r; VInt 0] w0).
  set (confirmation := invoke (_handle_confirm env)
                         [VSelf; VRequest r; VProcess p; VIncomingBall ball]
                         w2).
  assert (HA : confirmation =
               mkRun (Returned true)
                     (mkWorld (Z.max t1 tc) (cancelled w)
                              (S (S (next_obj w))))
                     [EvFirst [confirm] (Some d) false; EvEjectDone p])
    by exact (step_A_confirmed env r p ball w2 d Hd tc Hconf Htc).
  assert (HE : attempt =
               mkRun (outcome confirmation) (final confirmation)
                     ([EvStartEject p; EvIsJammed p jammed;
                       EvEjectOneBall jammed 0; EvWaitForBallLeft p;
                       EvFirst [ball_left] (Some d) true;
                       EvAddIncomingBall (EjectRequest.target r) ball]
                      ++ events confirmation))
    by exact (attempt_ball_left env r 0 w0 d Hd tl Hleft Htl).
  rewrite HA in HE. simpl in HE.
  unfold _ejecting. rewrite loop_iteration. rewrite Hwait. cbv zeta.
  simpl now. fold t0. fold w0.
  destruct (get_ball_count env t0 =? 0) eqn:E;
    [apply Z.eqb_eq in E; contradiction|].
  fold attempt. rewrite HE. reflexivity.
Qed.

Lemma confirmed_eject_returns_witness :
  wait_for_ball delivered (now start_world) = Some 0 /\
  get_ball_count delivered 0 <> 0 /\
  completion delivered start_world
             (wait_for_ball_left delivered first_handle) = Some 3 /\
  completion delivered start_world 7%nat = Some 5 /\
  outcome (_ejecting delivered 2 (request (Some 1)) start_world)
    = Returned tt.
Proof.
  repeat (split; [first [reflexivity | discriminate]|]).
  rewrite (confirmed_eject_returns delivered (request (Some 1)) start_world 1
                                   0 10 3 5);
    first [reflexivity | simpl; lia | discriminate].
Defined.

(** *** The confirmation that comes late *)

(** X5: a confirmation that misses the eject timeout of the confirmation wait
    but comes within the 60 units after it, before any ball return, still
    makes the attempt a success: the confirmation wait leaves the future
    alive, the race of Step B sees it and [eject_done()] is the one
    terminal call. *)
Theorem late_confirmation_succeeds :
  forall (env : Env) (r : EjectRequest.t) (eject_try : Z) (w : World)
         (d tl tc : Z),
    let p := next_obj w in
    let ball_left := wait_for_ball_left env p in
    let ball_return := wait_for_ball_return env p in
    let confirm := EjectRequest.confirm_future r in
    let t1 := Z.max (now w) tl in
    let t2 := t1 + Z.max 0 d in
    let jammed := is_jammed env p (now w) in
    let ball := IncomingBall.mk (ball_device env) (S p) confirm in
    EjectRequest.eject_timeout r = Some d ->
    completion env w ball_left = Some tl ->
    tl <= deadline w d ->
    completion env w confirm = Some tc ->
    t2 < tc <= t2 + 60 ->
    is_ball_returned env p t2 = false ->
    (forall tr, completion env w ball_return = Some tr -> tc < tr) ->
    let run := invoke (_eject_ball env) [VSelf; VRequest r; VInt eject_try] w in
    outcome run = Returned true /\
    events run =
      [EvStartEject p; EvIsJammed p jammed; EvEjectOneBall jammed eject_try;
       EvWaitForBallLeft p; EvFirst [ball_left] (Some d) true;
       EvAddIncomingBall (EjectRequest.target r) ball;
       EvFirst [confirm] (Some d) false; EvIsBallReturned p false;
       EvWaitForBallReturn p; EvFirst [ball_return; confirm] (Some 60) true;
       EvEjectDone p].
Proof.
  intros env r eject_try w d tl tc p ball_left ball_return confirm t1 t2
         jammed ball Hd Hleft Htl Hconf Htc Hret Hfirst run.
  set (w2 := mkWorld t1 (cancelled w) (S (S (next_obj w)))).
  set (w3 := mkWorld t2 (cancelled w) (S (S (next_obj w)))).
  set (late := invoke (_handle_late_confirm_or_missing env)
                      [VSelf; VRequest r; VProcess p] w3).
  set (confirmation := invoke (_handle_confirm env)
                         [VSelf; VRequest r; VProcess p; VIncomingBall ball]
                         w2).
  assert (Hcf2 : completes_by env w2 confirm (deadline w2 d) = false).
  { unfold completes_by.
    change (completion env w2 confirm) with (completion env w confirm).
    rewrite Hconf. apply Z.leb_gt. unfold deadline. simpl. fold t2. lia. }
  assert (HB : outcome late = Returned true /\
               events late =
                 [EvWaitForBallReturn p;
                  EvFirst [ball_return; confirm] (Some 60) true;
                  EvEjectDone p]).
  { apply (step_B_confirm_wins env r p w3 tc Hconf); [simpl; lia|].
    exact Hfirst. }
  assert (HA : confirmation =
               mkRun (outcome late) (final late)
                     ([EvFirst [confirm] (Some d) false;
                       EvIsBallReturned p false] ++ events late))
    by exact (step_A_undecided env r p ball w2 d Hd Hcf2 Hret).
  assert (HE : run =
               mkRun (outcome confirmation) (final confirmation)
                     ([EvStartEject p; EvIsJammed p jammed;
                       EvEjectOneBall jammed eject_try; EvWaitForBallLeft p;
                       EvFirst [ball_left] (Some d) true;
                       EvAddIncomingBall (EjectRequest.target r) ball]
                      ++ events confirmation))
    by exact (attempt_ball_left env r eject_try w d Hd tl Hleft Htl).
  destruct HB as (HBo & HBe).
  rewrite HA in HE. simpl in HE. rewrite HBo, HBe in HE. simpl in HE.
  rewrite HE. split; reflexivity.
Qed.

Lemma late_confirmation_succeeds_witness :
  completion late_confirm start_world
             (wait_for_ball_left late_confirm first_handle) = Some 3 /\
  completion late_confirm start_world 7%nat = Some 18 /\
  13 < 18 <= 13 + 60 /\
  outcome (invoke (_eject_ball late_confirm)
                  [VSelf; VRequest (request None); VInt 0] start_world)
    = Returned true.
Proof.
  split; [reflexivity | split; [reflexivity | split; [lia|]]].
  apply (late_confirmation_succeeds late_confirm (request None) 0 start_world
                                    10 3 18);
    try reflexivity; try (unfold deadline; simpl; lia).
  intros tr H. vm_compute in H. discriminate H.
Defined.

(** *** The race cancels its loser *)

(** X6: when the ball comes back first in the race of Step B while the
    confirmation is still pending, the attempt fails and the race, which
    cancels the waits that lost, leaves the confirmation future of the
    request cancelled: from then on it completes at no time. *)
Theorem late_return_cancels_confirmation :
  forall (env : Env) (r : EjectRequest.t) (p : Process) (w : World) (tr : Z),
    let ball_return := wait_for_ball_return env p in
    let confirm := EjectRequest.confirm_future r in
    completion env w ball_return = Some tr ->
    tr <= now w + 60 ->
    completes_by env w confirm (Z.max (now w) tr) = false ->
    let run := invoke (_handle_late_confirm_or_missing env)
                      [VSelf; VRequest r; VProcess p] w in
    outcome run = Returned false /\
    In confirm (cancelled (final run)) /\
    forall t, completes_by env (final run) confirm t = false.
Proof.
  intros env r p w tr ball_return confirm Hret Htr Hpending run.
  assert (Hlater : forall tc, completion env w confirm = Some tc -> tr < tc).
  { intros tc Hc. unfold completes_by in Hpending. rewrite Hc in Hpending.
    apply Z.leb_gt in Hpending. lia. }
  assert (Hne : Nat.eqb ball_return confirm = false).
  { apply Nat.eqb_neq. intros Heq. specialize (Hlater tr).
    rewrite <- Heq in Hlater. specialize (Hlater Hret). lia. }
  assert (Hin : In confirm (cancelled (final run))).
  { unfold run, ball_return, confirm in *. run_method.
    rewrite (Util_first_two_first env w _ _ 60 tr Hret Htr Hlater). simpl.
    rewrite Hne, Nat.eqb_refl. simpl.
    assert (Hp : match completion env w (EjectRequest.confirm_future r) with
                 | Some u => Z.max (now w) tr <? u
                 | None => true
                 end = true).
    { unfold completes_by in Hpending.
      destruct (completion env w (EjectRequest.confirm_future r)) as [tc|];
        [|reflexivity].
      apply Z.leb_gt in Hpending. apply Z.ltb_lt. exact Hpending. }
    rewrite Hp.
    destruct (match completion env w (wait_for_ball_return env p) with
              | Some u => Z.max (now w) tr <? u
              | None => true
              end); simpl; auto. }
  split; [|split; [exact Hin|]].
  - apply (step_B_return_wins env r p w tr Hret Htr Hlater).
  - intros t. unfold completes_by, completion.
    replace (existsb (Nat.eqb confirm) (cancelled (final run))) with true;
      [reflexivity|].
    symmetry. apply existsb_exists. exists confirm. split; [exact Hin|].
    apply Nat.eqb_refl.
Qed.

Lemma late_return_cancels_confirmation_witness :
  completion late_return step_B_world
             (wait_for_ball_return late_return first_handle) = Some 18 /\
  18 <= now step_B_world + 60 /\
  completes_by late_return step_B_world 7%nat (Z.max (now step_B_world) 18)
    = false /\
  In 7%nat
     (cancelled
        (final (invoke (_handle_late_confirm_or_missing late_return)
                       [VSelf; VRequest (request None); VProcess first_handle]
                       step_B_world))).
Proof.
  split; [reflexivity | split; [simpl; lia | split; [reflexivity|]]].
  apply (late_return_cancels_confirmation late_return (request None)
                                          first_handle step_B_world 18);
    first [reflexivity | simpl; lia].
Defined.

(** *** How the eject loop can end *)

Lemma attempt_fires_ejector_once (env : Env) (r : EjectRequest.t)
      (eject_try : Z) (w : World) :
  filter is_eject_one_ball
         (events (invoke (_eject_ball env)
                         [VSelf; VRequest r; VInt eject_try] w)) =
    [EvEjectOneBall (is_jammed env (next_obj w) (now w)) eject_try].
Proof.
  every_path; reflexivity.
Qed.


(** X8: the ejector is fired at most once for a request, and always with the
    try index 0: the eject loop never comes to a second attempt. *)
Theorem ejector_fired_at_most_once :
  forall (env : Env) (r : EjectRequest.t) (w : World) (fuel : nat),
    let fired := filter is_eject_one_ball (events (_ejecting env fuel r w)) in
    fired = [] \/ exists jammed, fired = [EvEjectOneBall jammed 0].
Proof.
  intros env r w [|fuel]; [left; reflexivity|]. cbv zeta.
  unfold _ejecting. rewrite loop_iteration.
  destruct (wait_for_ball env (now w)) as [tb|]; [|left; reflexivity].
  cbv zeta.
  destruct (get_ball_count env _ =? 0); [left; reflexivity|].
  right. simpl.
  rewrite attempt_fires_ejector_once. eexists. reflexivity.
Qed.

(** *** The queue worker *)

Section WorkerProperties.

Variable env : Env.

Lemma run_on_empty_queue (fuel turns : nat) (w : World) :
  _run env (S fuel) turns [] w = (mkRun Suspended w [], []).
Proof. reflexivity. Qed.

(** One turn of the worker: the eject loop of the first request, and the
    rest of the queue only when that loop returns. *)
Lemma run_turn (fuel turns : nat) (r : EjectRequest.t) (rest : EjectQueue)
      (w : World) :
  _run env (S fuel) turns (r :: rest) w =
    let first := _ejecting env turns r w in
    match outcome first with
    | Returned _ =>
        let later := _run env fuel turns rest (final first) in
        (mkRun (outcome (fst later)) (final (fst later))
               (events first ++ events (fst later)),
         snd later)
    | _ => (first, rest)
    end.
Proof.
  cbn [_run]. unfold bind, debug_log, ret. cbv zeta.
  destruct (_ejecting env turns r w) as [[[]|e| |] w' evs]; simpl;
    try reflexivity.
  destruct (_run env fuel turns rest w') as [[o w'' evs'] remaining].
  reflexivity.
Qed.

(** An eject loop waits for a ball at most once, opens at most one attempt
    and does not stop the device. *)
Lemma eject_loop_counts (turns : nat) (r : EjectRequest.t) (w : World) :
  (count_events is_wait_for_ball (events (_ejecting env turns r w)) <= 1)%nat /\
  (count_events is_start_eject (events (_ejecting env turns r w)) <= 1)%nat /\
  count_events is_stop (events (_ejecting env turns r w)) = 0%nat.
Proof.
  destruct turns as [|turns]; [repeat split; unfold count_events; simpl; lia|].
  unfold _ejecting. rewrite loop_iteration.
  destruct (wait_for_ball env (now w)) as [tb|];
    [|repeat split; unfold count_events; simpl; lia].
  cbv zeta.
  destruct (get_ball_count env _ =? 0);
    [repeat split; unfold count_events; simpl; lia|].
  destruct (attempt_opens_one_handle env r 0
              (mkWorld (Z.max (now w) tb) (cancelled w) (next_obj w)))
    as (_ & Hone & Hstop & Hball).
  unfold count_events in *. simpl.
  rewrite Hone, Hstop, Hball. repeat split; lia.
Qed.

End WorkerProperties.



(** X10: the worker takes requests off the front of the queue and leaves the
    rest in order; for every request taken it waits for a ball at most
    once and opens at most one attempt, and it never stops the device. *)
Theorem worker_takes_front_of_queue :
  forall (env : Env) (fuel turns : nat) (queue : EjectQueue) (w : World),
    let result := _run env fuel turns queue w in
    exists taken,
      queue = taken ++ snd result /\
      (count_events is_wait_for_ball (events (fst result))
       <= List.length taken)%nat /\
      (count_events is_start_eject (events (fst result))
       <= List.length taken)%nat /\
      count_events is_stop (events (fst result)) = 0%nat.
Proof.
  intros env fuel. induction fuel as [|fuel IH]; intros turns queue w.
  - exists []. repeat split; simpl; first [reflexivity | lia].
  - destruct queue as [|r rest].
    + exists []. repeat split; simpl; first [reflexivity | lia].
    + cbv zeta. rewrite run_turn. cbv zeta.
      destruct (eject_loop_counts env turns r w) as (Hball & Hone & Hstop).
      destruct (outcome (_ejecting env turns r w)) as [[]|e| |] eqn:Ho;
        try (exists [r]; simpl; repeat split;
             first [reflexivity | assumption]).
      destruct (IH turns rest (final (_ejecting env turns r w)))
        as (taken & Hq & Hb' & Ho' & Hs').
      exists (r :: taken). simpl.
      rewrite !count_events_app.
      repeat split; try lia.
      rewrite Hq at 1. reflexivity.
Qed.

(** *** The worker where nothing is late *)

Lemma announced_app (l1 l2 : list Event) :
  announced (l1 ++ l2) = announced l1 ++ announced l2.
Proof.
  induction l1 as [|e l1 IH]; [reflexivity|].
  destruct e; simpl; rewrite IH; reflexivity.
Qed.

Section Prompt.

Variable env : Env.

Hypothesis ball_comes : forall t, wait_for_ball env t <> None.
Hypothesis ball_stays : forall t, get_ball_count env t <> 0.

(** A wait on a future that is complete ends at once, whatever the
    timeout. *)
Lemma Util_first_one_done (w : World) (f : Future) (timeout : option Z)
      (cancel_others : bool) :
  completes_by env w f (now w) = true ->
  Util_first env [f] timeout cancel_others w =
    mkRun (Returned f) (mkWorld (now w) (cancelled w) (next_obj w))
          [EvFirst [f] timeout cancel_others].
Proof.
  unfold completes_by, Util_first, pending_at, deadline. simpl.
  destruct (completion env w f) as [t|]; [|discriminate].
  intros Ht. apply Z.leb_le in Ht.
  replace (Z.max (now w) t) with (now w) by lia.
  replace (now w <? t) with false by (symmetry; apply Z.ltb_ge; lia).
  destruct timeout as [d|].
  - replace (t <=? now w + Z.max 0 d) with true
      by (symmetry; apply Z.leb_le; lia).
    destruct cancel_others; reflexivity.
  - destruct cancel_others; reflexivity.
Qed.

Lemma all_complete_later (w : World) (t : Z) (n : nat) :
  all_complete env w ->
  now w <= t ->
  all_complete env (mkWorld t (cancelled w) n).
Proof.
  intros Hall Ht f. specialize (Hall f). unfold completes_by in *.
  change (completion env (mkWorld t (cancelled w) n) f)
    with (completion env w f).
  destruct (completion env w f) as [u|]; [|discriminate].
  apply Z.leb_le in Hall. apply Z.leb_le. simpl. lia.
Qed.

(** Where every future is complete, an attempt succeeds at once. *)
Lemma prompt_attempt (r : EjectRequest.t) (eject_try : Z) (w : World) :
  all_complete env w ->
  let p := next_obj w in
  let jammed := is_jammed env p (now w) in
  invoke (_eject_ball env) [VSelf; VRequest r; VInt eject_try] w =
    mkRun (Returned true)
          (mkWorld (now w) (cancelled w) (S (S (next_obj w))))
          [EvStartEject p; EvIsJammed p jammed;
           EvEjectOneBall jammed eject_try; EvWaitForBallLeft p;
           EvFirst [wait_for_ball_left env p]
                   (EjectRequest.eject_timeout r) true;
           EvAddIncomingBall
             (EjectRequest.target r)
             (IncomingBall.mk (ball_device env) (S p)
                              (EjectRequest.confirm_future r));
           EvFirst [EjectRequest.confirm_future r]
                   (EjectRequest.eject_timeout r) false;
           EvEjectDone p].
Proof.
  intros Hall p jammed. unfold p, jammed. run_method.
  rewrite (Util_first_one_done
             (mkWorld (now w) (cancelled w) (S (next_obj w)))
             _ _ true (Hall _)).
  simpl. run_method.
  rewrite (Util_first_one_done
             (mkWorld (now w) (cancelled w) (S (S (next_obj w))))
             _ _ false (Hall _)).
  reflexivity.
Qed.

(** Where every future is complete, the eject loop returns after one
    attempt and leaves every future complete. *)
Lemma prompt_eject (turns : nat) (r : EjectRequest.t) (w : World) :
  all_complete env w ->
  let run := _ejecting env (S turns) r w in
  outcome run = Returned tt /\
  all_complete env (final run) /\
  announced (events run) = [announcement r] /\
  count_events is_eject_done (events run) = 1%nat /\
  count_events is_eject_failed (events run) = 0%nat.
Proof.
  intros Hall run. unfold run, _ejecting. rewrite loop_iteration.
  destruct (wait_for_ball env (now w)) as [tb|] eqn:Hwait;
    [|destruct (ball_comes _ Hwait)].
  cbv zeta.
  destruct (get_ball_count env _ =? 0) eqn:E;
    [apply Z.eqb_eq in E; destruct (ball_stays _ E)|].
  assert (Hall0 : all_complete env
                    (mkWorld (Z.max (now w) tb) (cancelled w) (next_obj w)))
    by (apply all_complete_later; [exact Hall | lia]).
  pose proof (prompt_attempt r 0 _ Hall0) as HE. cbv zeta in HE.
  rewrite HE. simpl.
  repeat split; try reflexivity.
  apply all_complete_later; [exact Hall | lia].
Qed.

(** Where every future is complete, the worker serves the whole queue. *)
Lemma prompt_worker (turns : nat) (queue : EjectQueue) :
  forall (fuel : nat) (w : World),
    all_complete env w ->
    (List.length queue < fuel)%nat ->
    let result := _run env fuel (S turns) queue w in
    outcome (fst result) = Suspended /\
    snd result = [] /\
    announced (events (fst result)) = map announcement queue /\
    count_events is_eject_done (events (fst result)) = List.length queue /\
    count_events is_eject_failed (events (fst result)) = 0%nat.
Proof.
  induction queue as [|r rest IH]; intros fuel w Hall Hfuel.
  - destruct fuel as [|fuel]; [simpl in Hfuel; lia|].
    repeat split; reflexivity.
  - destruct fuel as [|fuel]; [simpl in Hfuel; lia|].
    simpl in Hfuel. cbv zeta. rewrite run_turn. cbv zeta.
    destruct (prompt_eject turns r w Hall) as (Ho & Hall' & Han & Hdone & Hfail).
    rewrite Ho.
    destruct (IH fuel (final (_ejecting env (S turns) r w)) Hall')
      as (Ho' & Hq & Han' & Hdone' & Hfail'); [lia|].
    simpl. rewrite announced_app, !count_events_app.
    rewrite Han, Han', Hdone, Hdone', Hfail, Hfail', Ho', Hq.
    repeat split; reflexivity.
Qed.

End Prompt.

(** X11: where a ball is always there and every future is complete by now, the
    worker serves the whole queue in order, one successful attempt for each
    request, tells each target of its ball in queue order and then waits on
    the empty queue. *)
Theorem prompt_worker_serves_queue_in_order :
  forall (env : Env) (fuel turns : nat) (queue : EjectQueue) (w : World),
    (forall t, wait_for_ball env t <> None) ->
    (forall t, get_ball_count env t <> 0) ->
    all_complete env w ->
    (List.length queue < fuel)%nat ->
    let result := _run env fuel (S turns) queue w in
    outcome (fst result) = Suspended /\
    snd result = [] /\
    announced (events (fst result)) = map announcement queue /\
    count_events is_eject_done (events (fst result)) = List.length queue /\
    count_events is_eject_failed (events (fst result)) = 0%nat.
Proof.
  intros env fuel turns queue w Hball Hcount Hall Hfuel.
  exact (prompt_worker env Hball Hcount turns queue fuel w Hall Hfuel).
Qed.

Lemma prompt_worker_serves_queue_in_order_witness :
  (forall t, wait_for_ball prompt t <> None) /\
  (forall t, get_ball_count prompt t <> 0) /\
  all_complete prompt start_world /\
  announced (events (fst (_run prompt 3 1 [request None; second_request]
                               start_world)))
    = [(2%nat, 7%nat); (3%nat, 8%nat)].
Proof.
  split; [intros t; discriminate|].
  split; [intros t; discriminate|].
  split; [intros f; reflexivity|].
  apply (prompt_worker_serves_queue_in_order
           prompt 3 0 [request None; second_request] start_world).
  - intros t; discriminate.
  - intros t; discriminate.
  - intros f; reflexivity.
  - simpl; lia.
Defined.

(** X12: first in, first out: a request added with [add_eject_to_queue] is
    served after every request already in the queue. *)
Theorem added_request_is_served_last :
  forall (env : Env) (fuel turns : nat) (queue : EjectQueue)
         (r : EjectRequest.t) (w : World),
    (forall t, wait_for_ball env t <> None) ->
    (forall t, get_ball_count env t <> 0) ->
    all_complete env w ->
    (S (List.length queue) < fuel)%nat ->
    announced (events (fst (_run env fuel (S turns)
                                 (add_eject_to_queue queue r) w))) =
      announced (events (fst (_run env fuel (S turns) queue w)))
      ++ [announcement r].
Proof.
  intros env fuel turns queue r w Hball Hcount Hall Hfuel.
  destruct (prompt_worker env Hball Hcount turns queue fuel w Hall)
    as (_ & _ & Han & _); [lia|].
  destruct (prompt_worker env Hball Hcount turns (add_eject_to_queue queue r)
                          fuel w Hall)
    as (_ & _ & Han' & _).
  { unfold add_eject_to_queue. rewrite length_app. simpl. lia. }
  rewrite Han, Han'. unfold add_eject_to_queue. rewrite map_app. reflexivity.
Qed.

Lemma added_request_is_served_last_witness :
  (forall t, wait_for_ball prompt t <> None) /\
  (forall t, get_ball_count prompt t <> 0) /\
  all_complete prompt start_world /\
  announced (events (fst (_run prompt 3 1
                               (add_eject_to_queue [request None]
                                                   second_request)
                               start_world)))
    = announced (events (fst (_run prompt 3 1 [request None] start_world)))
      ++ [announcement second_request].
Proof.
  split; [intros t; discriminate|].
  split; [intros t; discriminate|].
  split; [intros f; reflexivity|].
  apply (added_request_is_served_last
           prompt 3 0 [request None] second_request start_world).
  - intros t; discriminate.
  - intros t; discriminate.
  - intros f; reflexivity.
  - simpl; lia.
Defined.
